(** * Hardware diagnostic tool: a shallow embedding of [hardware_info.py]

    The development follows the source file top to bottom:

    - Python numbers ([int], finite and special [float]) with the two
      operations the code applies to them, true division by [1024] and the
      [".2f"] format;
    - [get_size], the unit formatter;
    - the calls to [platform], [psutil], [GPUtil], [datetime] and [print]
      as events of a small program monad with exceptions;
    - the inspectors [get_system_info], [get_cpu_info], [get_memory_info],
      [get_disk_info], [try_get_gpu_info] and the renderer [main]. *)

From Stdlib Require Import ZArith Lia List Finite Bool String Ascii Permutation.
From Stdlib Require Import Decimal DecimalString DecimalN DecimalFacts.
From Stdlib Require Import Floats.SpecFloat.
Import ListNotations.

#[local] Open Scope string_scope.
#[local] Open Scope Z_scope.

(* ================================================================== *)
(** ** Python numbers *)

Module PyNum.

(** A Python [float] is an IEEE binary64 number.  A finite one is kept as
    the exact dyadic rational [m * 2^e]; the sign of a zero is not
    recorded. *)
Inductive float : Type :=
| Finite (m e : Z)
| Inf (neg : bool)
| NaN.

(** A Python number as [get_size] meets it: the [int] the caller passes,
    and the [float] that [bytes /= 1024] turns it into. *)
Inductive number : Type :=
| PyInt (n : Z)
| PyFloat (x : float).

Definition prec : Z := 53.
Definition emin : Z := -1074.
Definition emax : Z := 1024.

(** Nearest integer to [n / d] for [0 <= n] and [0 < d], a tie going to
    the even neighbour. *)
Definition round_half_even (n d : Z) : Z :=
  let q := n / d in
  let r := n mod d in
  if (d <? 2 * r) || ((d =? 2 * r) && Z.odd q) then q + 1 else q.

(** The binary64 number nearest to [m * 2^e] (ties to even): the
    significand keeps [prec] bits, fewer below the smallest normal
    exponent, and a result of [2^emax] or more is an infinity. *)
Definition round_binary64 (m e : Z) : float :=
  let a := Z.abs m in
  let s := Z.max 0 (Z.max (Z.log2 a - (prec - 1)) (emin - e)) in
  let q := round_half_even a (2 ^ s) in
  if q =? 0 then Finite 0 0
  else if emax <=? Z.log2 q + (e + s) then Inf (m <? 0)
  else Finite (Z.sgn m * q) (e + s).

(** Comparison of two finite values by their exact value. *)
Definition dyadic_compare (m1 e1 m2 e2 : Z) : comparison :=
  let e := Z.min e1 e2 in
  (m1 * 2 ^ (e1 - e)) ?= (m2 * 2 ^ (e2 - e)).

(** [x < y] on floats; any comparison with a NaN is false. *)
Definition flt (x y : float) : bool :=
  match x, y with
  | NaN, _ | _, NaN => false
  | Inf true, Inf true => false
  | Inf true, _ => true
  | _, Inf true => false
  | Inf false, _ => false
  | _, Inf false => true
  | Finite m1 e1, Finite m2 e2 =>
      match dyadic_compare m1 e1 m2 e2 with Lt => true | _ => false end
  end.

(** [x <= y] on floats. *)
Definition fle (x y : float) : bool :=
  match x, y with
  | NaN, _ | _, NaN => false
  | Inf true, _ => true
  | _, Inf false => true
  | Inf false, _ => false
  | _, Inf true => false
  | Finite m1 e1, Finite m2 e2 =>
      match dyadic_compare m1 e1 m2 e2 with Gt => false | _ => true end
  end.

(** [float(n)] for an [int] that is a float operand: exact. *)
Definition of_Z (n : Z) : float := Finite n 0.

(** [x * y] on floats. *)
Definition fmul (x y : float) : float :=
  match x, y with
  | NaN, _ | _, NaN => NaN
  | Inf s, Inf t => Inf (xorb s t)
  | Inf s, Finite m _ | Finite m _, Inf s =>
      if m =? 0 then NaN else Inf (xorb s (m <? 0))
  | Finite m1 e1, Finite m2 e2 => round_binary64 (m1 * m2) (e1 + e2)
  end.

End PyNum.
Export PyNum.

(* ================================================================== *)
(** ** Exceptions and outcomes *)

Inductive exc_class : Type :=
| ImportError
| OverflowError
| AttributeError
| OtherException (name : string).

(** An instance of Python's [Exception]: its class and [str(e)]. *)
Record exn : Type := Exn { exn_class : exc_class; exn_str : string }.

Inductive outcome (A : Type) : Type :=
| Returns (a : A)
| Raises (e : exn).
Arguments Returns {A} a.
Arguments Raises {A} e.

Definition obind {A B} (o : outcome A) (k : A -> outcome B) : outcome B :=
  match o with
  | Returns a => k a
  | Raises e => Raises e
  end.

(* ================================================================== *)
(** ** The unit formatter, [get_size] *)

Module Fmt.

(** [str(n)] for a non-negative [int]. *)
Definition dec (n : Z) : string := NilZero.string_of_uint (N.to_uint (Z.to_N n)).

Definition digit (n : Z) : ascii := ascii_of_N (48 + Z.to_N n).

(** The text of [c] hundredths: integer part, point, two digits. *)
Definition hundredths (c : Z) : string :=
  dec (c / 100) ++ String "." (String (digit (c / 10 mod 10)) (String (digit (c mod 10)) "")).

(** [|m| * 2^e] in hundredths, correctly rounded, ties to even. *)
Definition to_hundredths (m e : Z) : Z :=
  if 0 <=? e then Z.abs m * 2 ^ e * 100
  else round_half_even (Z.abs m * 100) (2 ^ (- e)).

(** [f"{x:.2f}"] for a float. *)
Definition format_2f_float (x : float) : string :=
  match x with
  | NaN => "nan"
  | Inf true => "-inf"
  | Inf false => "inf"
  | Finite m e => (if m <? 0 then "-" else "") ++ hundredths (to_hundredths m e)
  end.

(** [float(n)] for an [int] converted on its own: rounded to the nearest
    float, [OverflowError] beyond the largest one. *)
Definition float_of_int (n : Z) : outcome float :=
  match round_binary64 n 0 with
  | Inf _ => Raises (Exn OverflowError "int too large to convert to float")
  | x => Returns x
  end.

(** [f"{bytes:.2f}"]: an [int] is converted to [float] first. *)
Definition format_2f (bytes : number) : outcome string :=
  match bytes with
  | PyInt n => obind (float_of_int n) (fun x => Returns (format_2f_float x))
  | PyFloat x => Returns (format_2f_float x)
  end.

End Fmt.
Export Fmt.

(** [bytes < 1024]: exact on an [int], a float comparison otherwise. *)
Definition lt_1024 (bytes : number) : bool :=
  match bytes with
  | PyInt n => n <? 1024
  | PyFloat x => flt x (of_Z 1024)
  end.

(** [bytes / 1024].  On an [int] it is the true division of two ints: the
    quotient correctly rounded, [OverflowError] when it exceeds the float
    range.  On a float the exponent drops by ten, rounding only among the
    subnormals. *)
Definition truediv_1024 (bytes : number) : outcome number :=
  match bytes with
  | PyInt n =>
      match round_binary64 n (-10) with
      | Inf _ => Raises (Exn OverflowError "integer division result too large for a float")
      | x => Returns (PyFloat x)
      end
  | PyFloat (Finite m e) => Returns (PyFloat (round_binary64 m (e - 10)))
  | PyFloat x => Returns (PyFloat x)
  end.

Definition units : list string := [""; "K"; "M"; "G"; "T"; "P"].

(** The [for unit in ...] loop; falling off its end is Python's implicit
    [return None]. *)
Fixpoint get_size_loop (us : list string) (bytes : number) : outcome (option string) :=
  match us with
  | [] => Returns None
  | unit :: us' =>
      if lt_1024 bytes then
        obind (format_2f bytes) (fun s => Returns (Some (s ++ unit ++ "B")))
      else
        obind (truediv_1024 bytes) (get_size_loop us')
  end.

Definition get_size (bytes : number) : outcome (option string) :=
  get_size_loop units bytes.

(* ================================================================== *)
(** ** Auxiliary notions for the proofs about [get_size] *)

(** The shift that brings a positive integer down to [prec] bits. *)
Definition shift53 (b : Z) : Z := Z.max 0 (Z.log2 b - 52).

(** The significand [round_binary64] keeps of a positive integer. *)
Definition sig53 (b : Z) : Z := round_half_even b (2 ^ shift53 b).

(** The integer that [float(b)] denotes, [0 < b]. *)
Definition nearest53 (b : Z) : Z := sig53 b * 2 ^ shift53 b.

(** What the loop of [get_size] returns once [bytes] is a float: [B] is
    the integer the first division rounded [bytes] to, [j] the number of
    divisions done so far. *)
Fixpoint size_text_loop (us : list string) (j B : Z) : option string :=
  match us with
  | [] => None
  | unit :: us' =>
      if B <? 1024 ^ (j + 1) then
        Some (hundredths (round_half_even (100 * B) (1024 ^ j)) ++ unit ++ "B")
      else size_text_loop us' (j + 1) B
  end.

(** *** Reading a size text back

    The property of the unit formatter speaks of taking a produced text
    apart again: the unit suffix is stripped, the numeric part is read as a
    number with two decimals (kept here in hundredths), and the suffix
    gives the power of [1024]. *)

Definition is_digit (c : ascii) : bool :=
  let n := N_of_ascii c in ((48 <=? n) && (n <=? 57))%N.

Definition digit_value (c : ascii) : option Z :=
  if is_digit c then Some (Z.of_N (N_of_ascii c) - 48) else None.

(** The longest prefix of digits, and what follows it. *)
Fixpoint span_digits (s : string) : string * string :=
  match s with
  | EmptyString => (EmptyString, EmptyString)
  | String c s' =>
      if is_digit c then
        let (ds, rest) := span_digits s' in (String c ds, rest)
      else (EmptyString, s)
  end.

(** The position of the first unit whose suffix [unit ++ "B"] is [suffix]. *)
Fixpoint unit_index (us : list string) (suffix : string) : option nat :=
  match us with
  | [] => None
  | unit :: us' =>
      if String.eqb (unit ++ "B") suffix then Some O
      else option_map S (unit_index us' suffix)
  end.

(** A size text read back: its value in hundredths and the index of its
    unit. *)
Definition parse_size (s : string) : option (Z * nat) :=
  let (ip, rest) := span_digits s in
  match NilZero.uint_of_string ip, rest with
  | Some u, String "." (String c1 (String c0 suffix)) =>
      match digit_value c1, digit_value c0, unit_index units suffix with
      | Some a, Some b, Some k =>
          Some (100 * Z.of_N (N.of_uint u) + 10 * a + b, k)
      | _, _, _ => None
      end
  | _, _ => None
  end.

(** *** The float model against the standard library's specification

    [SpecFloat] specifies IEEE binary floats on integers; a float of this
    development agrees with one of [SpecFloat] when both are the same NaN,
    infinity or number. *)
Definition agrees (x : float) (y : spec_float) : bool :=
  match x, y with
  | NaN, S754_nan => true
  | Inf s, S754_infinity t => Bool.eqb s t
  | Finite m _, S754_zero _ => m =? 0
  | Finite m e, S754_finite s p e' =>
      match dyadic_compare m e (if s then Z.neg p else Z.pos p) e' with
      | Eq => true
      | _ => false
      end
  | _, _ => false
  end.

(** Values at which the proofs below turn: around [2^53], [2^60] and the
    overflow threshold, a tie, subnormals, a negative. *)
Definition rounding_samples : list (Z * Z) :=
  [ (0, 0); (1536, -10); (-5, 0); (3700, -8);
    (2 ^ 53 + 1, 0); (2 ^ 53 + 3, 0); (9024087753343631, -10);
    (2 ^ 60 - 65, -10); (2 ^ 60 - 64, -10); (2 ^ 60 - 1, -10); (2 ^ 60, -10);
    (2 ^ 1034 - 2 ^ 980 - 1, -10); (2 ^ 1034 - 2 ^ 980, -10); (2 ^ 1034, -10);
    (- (2 ^ 1024), 0); (1, -1074); (1, -1075); (3, -1075); (3, -1076);
    (2 ^ 53 + 1, -1100) ].

(* ================================================================== *)
(** ** Values and dictionaries *)

(** The Python values the report holds: [None], an [int], a [str], or a
    nested [dict]. *)
#[warnings="-register-all"]
Inductive value : Type :=
| VNone
| VInt (n : Z)
| VStr (s : string)
| VDict (d : list (string * value)).

(** A [dict] with [str] keys, in insertion order. *)
Definition dict : Type := list (string * value).

Module Dict.

(** [d[k] = v]: an existing key keeps its place and takes the new value,
    a new key goes to the end. *)
Fixpoint set (d : dict) (k : string) (v : value) : dict :=
  match d with
  | [] => [(k, v)]
  | (k', v') :: d' =>
      if String.eqb k' k then (k', v) :: d' else (k', v') :: set d' k v
  end.

(** [d[k]], when [k in d]. *)
Fixpoint get (d : dict) (k : string) : option value :=
  match d with
  | [] => None
  | (k', v') :: d' => if String.eqb k' k then Some v' else get d' k
  end.

(** [k in d]. *)
Definition mem (k : string) (d : dict) : bool :=
  existsb (fun kv => String.eqb (fst kv) k) d.

Definition keys (d : dict) : list string := map fst d.

End Dict.

(** [enumerate(l)]. *)
Definition enumerate {A : Type} (l : list A) : list (nat * A) :=
  combine (seq 0 (List.length l)) l.

(** [None] or an [int], as [psutil.cpu_count] returns it. *)
Definition value_of_count (c : option Z) : value :=
  match c with
  | Some n => VInt n
  | None => VNone
  end.

(** What [get_size] returned, as a value. *)
Definition value_of_size (s : option string) : value :=
  match s with
  | Some t => VStr t
  | None => VNone
  end.

(* ================================================================== *)
(** ** The providers *)

(** [psutil.cpu_freq()]. *)
Record scpufreq : Type :=
  { freq_current : float; freq_min : float; freq_max : float }.

(** [psutil.virtual_memory()]. *)
Record svmem : Type :=
  { vm_total : Z; vm_available : Z; vm_percent : float; vm_used : Z; vm_free : Z }.

(** [psutil.swap_memory()]. *)
Record sswap : Type :=
  { sw_total : Z; sw_used : Z; sw_free : Z; sw_percent : float }.

(** An item of [psutil.disk_partitions()]. *)
Record sdiskpart : Type :=
  { device : string; mountpoint : string; fstype : string; opts : string }.

(** [psutil.disk_usage(path)]. *)
Record sdiskusage : Type :=
  { du_total : Z; du_used : Z; du_free : Z; du_percent : float }.

(** An item of [GPUtil.getGPUs()]. *)
Record GPU : Type :=
  { gpu_id : Z; gpu_uuid : string; gpu_load : float;
    gpu_memoryTotal : float; gpu_memoryUsed : float; gpu_memoryFree : float;
    gpu_name : string; gpu_temperature : float }.

(** What [psutil.cpu_percent] returns: a list with [percpu=True], one
    float otherwise. *)
Definition cpu_percent_answer (percpu : bool) : Type :=
  if percpu then list float else float.

(** The calls the program makes to the outside, each with the type of its
    answer.  A call the program guards with [try] answers with an
    [outcome]. *)
Inductive event : Type -> Type :=
| platform_system : event string
| platform_release : event string
| platform_version : event string
| platform_machine : event string
| platform_processor : event string
| platform_node : event string
| psutil_cpu_freq : event (option scpufreq)
| psutil_cpu_count (logical : bool) : event (option Z)
| psutil_cpu_percent (interval : option number) (percpu : bool) :
    event (cpu_percent_answer percpu)
| psutil_virtual_memory : event svmem
| psutil_swap_memory : event sswap
| psutil_disk_partitions : event (list sdiskpart)
| psutil_disk_usage (path : string) : event (outcome sdiskusage)
| import_GPUtil : event (outcome unit)
| GPUtil_getGPUs : event (outcome (list GPU))
| datetime_now_strftime (format : string) : event string
| print (v : value) : event unit.

(** A call as it appears in a trace. *)
Definition call : Type := { X : Type & event X }.

Definition Call {X : Type} (ev : event X) : call := existT event X ev.

(* ================================================================== *)
(** ** Programs: calls, exceptions, sequencing *)

Inductive prog (A : Type) : Type :=
| Ret (a : A)
| Throw (e : exn)
| Vis (X : Type) (ev : event X) (k : X -> prog A).
Arguments Ret {A} a.
Arguments Throw {A} e.
Arguments Vis {A X} ev k.

Fixpoint bind {A B : Type} (p : prog A) (f : A -> prog B) : prog B :=
  match p with
  | Ret a => f a
  | Throw e => Throw e
  | Vis ev k => Vis ev (fun x => bind (k x) f)
  end.

(** [try: p  except Exception as e: h e]. *)
Fixpoint try_except {A : Type} (p : prog A) (h : exn -> prog A) : prog A :=
  match p with
  | Ret a => Ret a
  | Throw e => h e
  | Vis ev k => Vis ev (fun x => try_except (k x) h)
  end.

Definition trigger {X : Type} (ev : event X) : prog X := Vis ev Ret.

(** A call that may raise. *)
Definition attempt {X : Type} (ev : event (outcome X)) : prog X :=
  Vis ev (fun o => match o with Returns x => Ret x | Raises e => Throw e end).

(** A pure computation that may raise. *)
Definition lift {A : Type} (o : outcome A) : prog A :=
  match o with
  | Returns a => Ret a
  | Raises e => Throw e
  end.

(** [for x in l: s = body x s]. *)
Fixpoint for_each {A S : Type} (l : list A) (body : A -> S -> prog S) (s : S) : prog S :=
  match l with
  | [] => Ret s
  | x :: l' => bind (body x s) (for_each l' body)
  end.

Declare Scope prog_scope.
Delimit Scope prog_scope with prog.
Notation "x <- p ;; q" := (bind p (fun x => q))
  (at level 61, p at next level, right associativity) : prog_scope.
Notation "p ;; q" := (bind p (fun _ => q))
  (at level 61, right associativity) : prog_scope.

(** The outside world: an answer to every call. *)
Definition world : Type := forall X : Type, event X -> X.

(** A run: the calls made, in order, and how the program ended. *)
Fixpoint run {A : Type} (w : world) (p : prog A) : list call * outcome A :=
  match p with
  | Ret a => ([], Returns a)
  | Throw e => ([], Raises e)
  | Vis ev k =>
      let (t, o) := run w (k (w _ ev)) in (Call ev :: t, o)
  end.

Definition trace {A : Type} (w : world) (p : prog A) : list call := fst (run w p).
Definition result {A : Type} (w : world) (p : prog A) : outcome A := snd (run w p).

(** What a trace printed. *)
Fixpoint stdout (t : list call) : list value :=
  match t with
  | [] => []
  | existT _ _ (print v) :: t' => v :: stdout t'
  | _ :: t' => stdout t'
  end.

(* ================================================================== *)
(** ** The inspectors and the renderer *)

Definition nl : string := String "010" EmptyString.

Section Program.

#[local] Open Scope prog_scope.

(** [tabulate(rows, headers=..., tablefmt=...)] of the [tabulate] package,
    and [str] of a [float], as f-strings apply it. *)
Variable tabulate : list (list value) -> list string -> string -> string.
Variable str_float : float -> string.

(** [f"{x}%"]. *)
Definition percent_text (x : float) : string := str_float x ++ "%".

(** [get_size(n)] as a dictionary value. *)
Definition size_value (n : Z) : prog value :=
  s <- lift (get_size (PyInt n)) ;; Ret (value_of_size s).

Definition get_system_info : prog dict :=
  system <- trigger platform_system ;;
  release <- trigger platform_release ;;
  version <- trigger platform_version ;;
  machine <- trigger platform_machine ;;
  processor <- trigger platform_processor ;;
  node <- trigger platform_node ;;
  Ret [ ("OS", VStr (system ++ " " ++ release));
        ("OS Version", VStr version);
        ("Machine", VStr machine);
        ("Processor", VStr processor);
        ("Hostname", VStr node) ].

(** [f"{cpu_freq.max:.2f}Mhz" if cpu_freq else "N/A"], for either field. *)
Definition frequency_text (cpu_freq : option scpufreq) (field : scpufreq -> float) : string :=
  match cpu_freq with
  | Some f => format_2f_float (field f) ++ "Mhz"
  | None => "N/A"
  end.

Definition core_key (i : nat) : string := "Core " ++ dec (Z.of_nat i) ++ " Usage".

Definition get_cpu_info : prog dict :=
  cpu_freq <- trigger psutil_cpu_freq ;;
  physical <- trigger (psutil_cpu_count false) ;;
  total <- trigger (psutil_cpu_count true) ;;
  usage <- trigger (psutil_cpu_percent None false) ;;
  let cpu_info : dict :=
    [ ("Physical Cores", value_of_count physical);
      ("Total Cores", value_of_count total);
      ("Max Frequency", VStr (frequency_text cpu_freq freq_max));
      ("Current Frequency", VStr (frequency_text cpu_freq freq_current));
      ("CPU Usage", VStr (percent_text usage)) ] in
  percentages <- trigger (psutil_cpu_percent (Some (PyInt 1)) true) ;;
  Ret (fold_left
         (fun cpu_info ip =>
            Dict.set cpu_info (core_key (fst ip)) (VStr (percent_text (snd ip))))
         (enumerate percentages) cpu_info).

Definition get_memory_info : prog dict :=
  svmem <- trigger psutil_virtual_memory ;;
  swap <- trigger psutil_swap_memory ;;
  total <- size_value (vm_total svmem) ;;
  available <- size_value (vm_available svmem) ;;
  used <- size_value (vm_used svmem) ;;
  swap_total <- size_value (sw_total swap) ;;
  swap_free <- size_value (sw_free swap) ;;
  swap_used <- size_value (sw_used swap) ;;
  Ret [ ("Total Memory", total);
        ("Available Memory", available);
        ("Used Memory", used);
        ("Memory Usage", VStr (percent_text (vm_percent svmem)));
        ("Total Swap", swap_total);
        ("Free Swap", swap_free);
        ("Used Swap", swap_used);
        ("Swap Usage", VStr (percent_text (sw_percent swap))) ].

Definition device_key (partition : sdiskpart) : string := "Device " ++ device partition.

(** The body of the [try] in [get_disk_info]. *)
Definition disk_entry (partition : sdiskpart) (disk_info : dict) : prog dict :=
  partition_usage <- attempt (psutil_disk_usage (mountpoint partition)) ;;
  total <- size_value (du_total partition_usage) ;;
  used <- size_value (du_used partition_usage) ;;
  free <- size_value (du_free partition_usage) ;;
  Ret (Dict.set disk_info (device_key partition)
         (VDict [ ("Mountpoint", VStr (mountpoint partition));
                  ("File System", VStr (fstype partition));
                  ("Total Size", total);
                  ("Used", used);
                  ("Free", free);
                  ("Usage", VStr (percent_text (du_percent partition_usage))) ])).

Definition get_disk_info : prog dict :=
  partitions <- trigger psutil_disk_partitions ;;
  for_each partitions
    (fun partition disk_info =>
       try_except (disk_entry partition disk_info) (fun _ => Ret disk_info))
    [].

Definition gpu_key (i : nat) : string := "GPU " ++ dec (Z.of_nat i).

Definition gpu_entry (gpu : GPU) : value :=
  VDict [ ("Name", VStr (gpu_name gpu));
          ("ID", VInt (gpu_id gpu));
          ("Load", VStr (percent_text (fmul (gpu_load gpu) (of_Z 100))));
          ("Free Memory", VStr (str_float (gpu_memoryFree gpu) ++ "MB"));
          ("Used Memory", VStr (str_float (gpu_memoryUsed gpu) ++ "MB"));
          ("Total Memory", VStr (str_float (gpu_memoryTotal gpu) ++ "MB"));
          ("Temperature", VStr (str_float (gpu_temperature gpu) ++ " °C"));
          ("UUID", VStr (gpu_uuid gpu)) ].

Definition gpu_unavailable : dict :=
  [ ("Status", VStr "GPU information unavailable - GPUtil module not installed or supported") ].

Definition gpu_failed (e : exn) : dict :=
  [ ("Error", VStr ("Failed to get GPU information: " ++ exn_str e)) ].

(** [except ImportError] comes first and takes [ImportError] and its
    subclasses; [except Exception] takes every other exception. *)
Definition try_get_gpu_info : prog dict :=
  try_except
    (attempt import_GPUtil ;;
     gpus <- attempt GPUtil_getGPUs ;;
     Ret (fold_left
            (fun gpu_info ig => Dict.set gpu_info (gpu_key (fst ig)) (gpu_entry (snd ig)))
            (enumerate gpus) []))
    (fun e =>
       match exn_class e with
       | ImportError => Ret gpu_unavailable
       | _ => Ret (gpu_failed e)
       end).

(** [[[k, v] for k, v in info.items()]]. *)
Definition rows (info : dict) : list (list value) :=
  map (fun kv => [VStr (fst kv); snd kv]) info.

(** [tabulate(rows, headers=['Property', 'Value'], tablefmt='grid')]. *)
Definition table (info : dict) : string :=
  tabulate (rows info) ["Property"; "Value"] "grid".

(** One section: header line and table. *)
Definition print_section (title : string) (info : dict) : prog unit :=
  trigger (print (VStr (nl ++ "--- " ++ title ++ " ---"))) ;;
  trigger (print (VStr (table info))).

(** [for name, info in groups.items()]: heading, then the table of
    [info.items()]; a value that is no [dict] has no [items]. *)
Definition print_groups (groups : dict) : prog unit :=
  for_each groups
    (fun group _ =>
       trigger (print (VStr (nl ++ fst group ++ ":"))) ;;
       match snd group with
       | VDict info => trigger (print (VStr (table info)))
       | _ => Throw (Exn AttributeError "object has no attribute 'items'")
       end)
    tt.

(** The test of the GPU branch of [main]. *)
Definition is_sentinel (gpu_info : dict) : bool :=
  Nat.eqb (List.length gpu_info) 1
  && (Dict.mem "Status" gpu_info || Dict.mem "Error" gpu_info).

Definition main : prog unit :=
  trigger (print (VStr (nl ++ "=== Hardware Diagnostic Tool ==="))) ;;
  now <- trigger (datetime_now_strftime "%Y-%m-%d %H:%M:%S") ;;
  trigger (print (VStr ("Report generated on: " ++ now ++ nl))) ;;
  system_info <- get_system_info ;;
  cpu_info <- get_cpu_info ;;
  memory_info <- get_memory_info ;;
  disk_info <- get_disk_info ;;
  gpu_info <- try_get_gpu_info ;;
  print_section "System Information" system_info ;;
  print_section "CPU Information" cpu_info ;;
  print_section "Memory Information" memory_info ;;
  trigger (print (VStr (nl ++ "--- Disk Information ---"))) ;;
  print_groups disk_info ;;
  trigger (print (VStr (nl ++ "--- GPU Information ---"))) ;;
  if is_sentinel gpu_info then
    let key := if Dict.mem "Status" gpu_info then "Status" else "Error" in
    match Dict.get gpu_info key with
    | Some v => trigger (print v)
    | None => Throw (Exn (OtherException "KeyError") key)
    end
  else
    print_groups gpu_info.

End Program.

(* ================================================================== *)
(** ** Notions the claims are stated with *)

(** [d[k] = v] for an entry [(k, v)]. *)
Definition set_entry (d : dict) (kv : string * value) : dict :=
  Dict.set d (fst kv) (snd kv).

(** A percentage: a float in [[0, 100]]. *)
Definition in_percent (x : float) : bool := fle (of_Z 0) x && fle x (of_Z 100).

(** A fraction: a float in [[0, 1]]. *)
Definition in_unit (x : float) : bool := fle (of_Z 0) x && fle x (of_Z 1).

(** A byte count as the operating system reports it: an unsigned 64-bit
    integer. *)
Definition byte_count (n : Z) : Prop := 0 <= n < 2 ^ 64.

(** The [interval] arguments of the calls to [psutil.cpu_percent] in a
    trace, in order. *)
Fixpoint sampling_intervals (t : list call) : list (option number) :=
  match t with
  | [] => []
  | existT _ _ (psutil_cpu_percent interval _) :: t' => interval :: sampling_intervals t'
  | _ :: t' => sampling_intervals t'
  end.

(** The dictionary value [get_size(n)] gives when it returns. *)
Definition size_of (n : Z) : value :=
  match get_size (PyInt n) with
  | Returns s => value_of_size s
  | Raises _ => VNone
  end.

(** The memory and swap sizes of a world are byte counts. *)
Definition memory_counts (w : world) : Prop :=
  let svmem := w _ psutil_virtual_memory in
  let swap := w _ psutil_swap_memory in
  byte_count (vm_total svmem) /\ byte_count (vm_available svmem) /\
  byte_count (vm_used svmem) /\ byte_count (sw_total swap) /\
  byte_count (sw_free swap) /\ byte_count (sw_used swap).

(** The sizes of a disk usage are byte counts. *)
Definition usage_counts (u : sdiskusage) : Prop :=
  byte_count (du_total u) /\ byte_count (du_used u) /\ byte_count (du_free u).

(** Every usage a world reports for one of its partitions has byte counts
    for sizes. *)
Definition disk_counts (w : world) : Prop :=
  forall p u, In p (w _ psutil_disk_partitions) ->
    w _ (psutil_disk_usage (mountpoint p)) = Returns u -> usage_counts u.


(** A nested grouping: a value that is a [dict]. *)
Definition is_dict (v : value) : bool :=
  match v with
  | VDict _ => true
  | _ => false
  end.

Definition is_returns {A : Type} (o : outcome A) : bool :=
  match o with
  | Returns _ => true
  | Raises _ => false
  end.

Section Notions.

Variable tabulate : list (list value) -> list string -> string -> string.
Variable str_float : float -> string.

(** What [get_system_info] returns. *)
Definition system_base (w : world) : dict :=
  [ ("OS", VStr (w _ platform_system ++ " " ++ w _ platform_release));
    ("OS Version", VStr (w _ platform_version));
    ("Machine", VStr (w _ platform_machine));
    ("Processor", VStr (w _ platform_processor));
    ("Hostname", VStr (w _ platform_node)) ].

(** The five entries [get_cpu_info] starts from. *)
Definition cpu_base (w : world) : dict :=
  [ ("Physical Cores", value_of_count (w _ (psutil_cpu_count false)));
    ("Total Cores", value_of_count (w _ (psutil_cpu_count true)));
    ("Max Frequency", VStr (frequency_text (w _ psutil_cpu_freq) freq_max));
    ("Current Frequency", VStr (frequency_text (w _ psutil_cpu_freq) freq_current));
    ("CPU Usage", VStr (percent_text str_float (w _ (psutil_cpu_percent None false)))) ].

(** The per-core entries for a list of percentages. *)
Definition core_entries (percentages : list float) : dict :=
  map (fun ip => (core_key (fst ip), VStr (percent_text str_float (snd ip))))
      (enumerate percentages).

(** The entry [get_disk_info] stores for a partition whose usage is [u]. *)
Definition disk_value (partition : sdiskpart) (u : sdiskusage)
    (total used free : value) : value :=
  VDict [ ("Mountpoint", VStr (mountpoint partition));
          ("File System", VStr (fstype partition));
          ("Total Size", total);
          ("Used", used);
          ("Free", free);
          ("Usage", VStr (percent_text str_float (du_percent u))) ].

(** One turn of the loop of [get_disk_info], when sizes format. *)
Definition disk_step (w : world) (disk_info : dict) (partition : sdiskpart) : dict :=
  match w _ (psutil_disk_usage (mountpoint partition)) with
  | Returns u =>
      Dict.set disk_info (device_key partition)
        (disk_value partition u
           (size_of (du_total u)) (size_of (du_used u)) (size_of (du_free u)))
  | Raises _ => disk_info
  end.

(** The partitions whose usage the world lets the program read. *)
Definition readable (w : world) (partition : sdiskpart) : bool :=
  is_returns (w _ (psutil_disk_usage (mountpoint partition))).

(** What the two [except] clauses of [try_get_gpu_info] return. *)
Definition gpu_handler (e : exn) : dict :=
  match exn_class e with
  | ImportError => gpu_unavailable
  | _ => gpu_failed e
  end.

(** The mapping [try_get_gpu_info] builds from the GPUs it enumerated. *)
Definition gpu_entries (gpus : list GPU) : dict :=
  map (fun ig => (gpu_key (fst ig), gpu_entry str_float (snd ig))) (enumerate gpus).

(** *** The layout of the report, in the words of the specification *)

(** A section: its header line, then its two-column table. *)
Definition section_lines (title : string) (info : dict) : list value :=
  [ VStr (nl ++ "--- " ++ title ++ " ---"); VStr (table tabulate info) ].

Definition fields (v : value) : dict :=
  match v with
  | VDict d => d
  | _ => []
  end.

(** One sub-table per device, each after a heading that is the device's
    key. *)
Definition group_lines (groups : dict) : list value :=
  flat_map (fun g => [ VStr (nl ++ fst g ++ ":"); VStr (table tabulate (fields (snd g))) ])
           groups.

(** The lines before the GPU section's body. *)
Definition report_head (now : string) (system_info cpu_info memory_info disk_info : dict)
  : list value :=
  ([ VStr (nl ++ "=== Hardware Diagnostic Tool ===");
     VStr ("Report generated on: " ++ now ++ nl) ]
   ++ section_lines "System Information" system_info
   ++ section_lines "CPU Information" cpu_info
   ++ section_lines "Memory Information" memory_info
   ++ [ VStr (nl ++ "--- Disk Information ---") ]
   ++ group_lines disk_info
   ++ [ VStr (nl ++ "--- GPU Information ---") ])%list.



End Notions.

(* ================================================================== *)
(** ** Sample machines *)

(** Stand-ins for [str] of a float and for [tabulate], to run the program
    on a concrete machine; the theorems hold for any two such functions. *)
Definition plain_float (x : float) : string := format_2f_float x.

Definition plain_cell (v : value) : string :=
  match v with
  | VNone => "None"
  | VInt n => (if n <? 0 then "-" else "") ++ dec (Z.abs n)
  | VStr s => s
  | VDict _ => "{...}"
  end.

Definition plain_table (rows : list (list value)) (headers : list string) (tablefmt : string)
  : string :=
  String.concat nl
    (String.concat " | " headers
     :: map (fun row => String.concat " | " (map plain_cell row)) rows).

(** What a machine answers. *)
Record machine : Type :=
  { m_cores : option Z;
    m_usage : float;
    m_percpu : list float;
    m_memory : svmem;
    m_swap : sswap;
    m_partitions : list sdiskpart;
    m_disk_usage : string -> outcome sdiskusage;
    m_import : outcome unit;
    m_gpus : outcome (list GPU) }.

Definition world_of (m : machine) : world :=
  fun X ev =>
    match ev in event T return T with
    | platform_system => "Linux"
    | platform_release => "6.1.0"
    | platform_version => "#1 SMP"
    | platform_machine => "x86_64"
    | platform_processor => "x86_64"
    | platform_node => "host"
    | psutil_cpu_freq =>
        Some {| freq_current := of_Z 2400; freq_min := of_Z 800; freq_max := of_Z 3600 |}
    | psutil_cpu_count logical => if logical then m_cores m else Some 1
    | psutil_cpu_percent interval percpu =>
        match percpu as b return cpu_percent_answer b with
        | true => match interval with Some _ => m_percpu m | None => [] end
        | false => match interval with Some _ => m_usage m | None => of_Z 0 end
        end
    | psutil_virtual_memory => m_memory m
    | psutil_swap_memory => m_swap m
    | psutil_disk_partitions => m_partitions m
    | psutil_disk_usage path => m_disk_usage m path
    | import_GPUtil => m_import m
    | GPUtil_getGPUs => m_gpus m
    | datetime_now_strftime _ => "2024-01-01 00:00:00"
    | print _ => tt
    end.

Definition sample_usage : sdiskusage :=
  {| du_total := 1024 ^ 3; du_used := 1536; du_free := 1024 ^ 3 - 1536;
     du_percent := Finite 1 (-1) |}.

Definition sample_gpu : GPU :=
  {| gpu_id := 0; gpu_uuid := "GPU-0000"; gpu_load := Finite 37 (-8);
     gpu_memoryTotal := of_Z 8192; gpu_memoryUsed := of_Z 1024;
     gpu_memoryFree := of_Z 7168; gpu_name := "gpu"; gpu_temperature := of_Z 50 |}.

(** Two cores, one device mounted twice and an empty optical drive, no
    GPU module. *)
Definition sample_machine : machine :=
  {| m_cores := Some 2;
     m_usage := Finite 25 (-1);
     m_percpu := [Finite 25 (-1); of_Z 100];
     m_memory := {| vm_total := 2 ^ 34; vm_available := 2 ^ 33; vm_percent := of_Z 50;
                    vm_used := 2 ^ 33; vm_free := 2 ^ 33 |};
     m_swap := {| sw_total := 0; sw_used := 0; sw_free := 0; sw_percent := of_Z 0 |};
     m_partitions :=
       [ {| device := "/dev/sda1"; mountpoint := "/"; fstype := "ext4"; opts := "rw" |};
         {| device := "/dev/sda1"; mountpoint := "/home"; fstype := "ext4"; opts := "rw" |};
         {| device := "/dev/sr0"; mountpoint := "/media"; fstype := "iso9660"; opts := "ro" |} ];
     m_disk_usage := fun path =>
       if String.eqb path "/media"
       then Raises (Exn (OtherException "OSError") "No medium found")
       else Returns sample_usage;
     m_import := Raises (Exn ImportError "No module named 'GPUtil'");
     m_gpus := Returns [] |}.

(** The same machine with the GPU module and one GPU. *)
Definition gpu_machine : machine :=
  {| m_cores := m_cores sample_machine;
     m_usage := m_usage sample_machine;
     m_percpu := m_percpu sample_machine;
     m_memory := m_memory sample_machine;
     m_swap := m_swap sample_machine;
     m_partitions := [ {| device := "/dev/sda1"; mountpoint := "/"; fstype := "ext4"; opts := "rw" |} ];
     m_disk_usage := m_disk_usage sample_machine;
     m_import := Returns tt;
     m_gpus := Returns [sample_gpu] |}.

(* ================================================================== *)
(** ** Notions for the further properties *)

Section MoreNotions.

Variable tabulate : list (list value) -> list string -> string -> string.
Variable str_float : float -> string.

(** One turn of the loop of [get_disk_info], whatever the provider
    answers: the entry is stored when the usage is read and its three
    sizes format, and nothing changes otherwise. *)
Definition disk_step_any (w : world) (disk_info : dict) (partition : sdiskpart) : dict :=
  match w _ (psutil_disk_usage (mountpoint partition)) with
  | Returns u =>
      match get_size (PyInt (du_total u)),
            get_size (PyInt (du_used u)),
            get_size (PyInt (du_free u)) with
      | Returns total, Returns used, Returns free =>
          Dict.set disk_info (device_key partition)
            (disk_value str_float partition u
               (value_of_size total) (value_of_size used) (value_of_size free))
      | _, _, _ => disk_info
      end
  | Raises _ => disk_info
  end.

(** The lines of the report after the title and the generation time. *)
Definition report_body (system_info cpu_info memory_info disk_info gpu_info : dict)
  : list value :=
  (section_lines tabulate "System Information" system_info
   ++ section_lines tabulate "CPU Information" cpu_info
   ++ section_lines tabulate "Memory Information" memory_info
   ++ [ VStr (nl ++ "--- Disk Information ---") ]
   ++ group_lines tabulate disk_info
   ++ [ VStr (nl ++ "--- GPU Information ---") ]
   ++ (if is_sentinel gpu_info then map snd gpu_info
       else group_lines tabulate gpu_info))%list.

End MoreNotions.

(** The eight keys of [get_memory_info], in order. *)
Definition memory_keys : list string :=
  [ "Total Memory"; "Available Memory"; "Used Memory"; "Memory Usage";
    "Total Swap"; "Free Swap"; "Used Swap"; "Swap Usage" ].

(** The five keys [get_cpu_info] starts from, in order. *)
Definition cpu_keys : list string :=
  [ "Physical Cores"; "Total Cores"; "Max Frequency"; "Current Frequency"; "CPU Usage" ].

(** Machines for the further properties. *)
Definition root_partition : sdiskpart :=
  {| device := "/dev/sda1"; mountpoint := "/"; fstype := "ext4"; opts := "rw" |}.

Definition home_partition : sdiskpart :=
  {| device := "/dev/sda1"; mountpoint := "/home"; fstype := "ext4"; opts := "rw" |}.

Definition optical_partition : sdiskpart :=
  {| device := "/dev/sr0"; mountpoint := "/media"; fstype := "iso9660"; opts := "ro" |}.

Definition huge_usage : sdiskusage :=
  {| du_total := 2 ^ 1034; du_used := 0; du_free := 0; du_percent := of_Z 0 |}.

(** A machine with the given partitions and the given answer to every
    usage read; the rest as on the sample machine. *)
Definition disk_machine (partitions : list sdiskpart)
    (usage : string -> outcome sdiskusage) : machine :=
  {| m_cores := m_cores sample_machine;
     m_usage := m_usage sample_machine;
     m_percpu := m_percpu sample_machine;
     m_memory := m_memory sample_machine;
     m_swap := m_swap sample_machine;
     m_partitions := partitions;
     m_disk_usage := usage;
     m_import := m_import sample_machine;
     m_gpus := m_gpus sample_machine |}.

(** The sample machine with a total memory beyond what [get_size] can
    divide. *)
Definition huge_memory_machine : machine :=
  {| m_cores := m_cores sample_machine;
     m_usage := m_usage sample_machine;
     m_percpu := m_percpu sample_machine;
     m_memory := {| vm_total := 2 ^ 1034; vm_available := 0; vm_percent := of_Z 0;
                    vm_used := 0; vm_free := 0 |};
     m_swap := m_swap sample_machine;
     m_partitions := m_partitions sample_machine;
     m_disk_usage := m_disk_usage sample_machine;
     m_import := m_import sample_machine;
     m_gpus := m_gpus sample_machine |}.

(** The sample machine with the GPU module installed and no GPU. *)
Definition no_gpu_machine : machine :=
  {| m_cores := m_cores sample_machine;
     m_usage := m_usage sample_machine;
     m_percpu := m_percpu sample_machine;
     m_memory := m_memory sample_machine;
     m_swap := m_swap sample_machine;
     m_partitions := m_partitions sample_machine;
     m_disk_usage := m_disk_usage sample_machine;
     m_import := Returns tt;
     m_gpus := Returns [] |}.



(** The sample machine with the given answers of the GPU module. *)
Definition gpu_module_machine (import : outcome unit) (gpus : outcome (list GPU)) : machine :=
  {| m_cores := m_cores sample_machine;
     m_usage := m_usage sample_machine;
     m_percpu := m_percpu sample_machine;
     m_memory := m_memory sample_machine;
     m_swap := m_swap sample_machine;
     m_partitions := m_partitions sample_machine;
     m_disk_usage := m_disk_usage sample_machine;
     m_import := import;
     m_gpus := gpus |}.

(** The module imports, and enumerating raises an [ImportError]. *)
Definition late_import_error : exn := Exn ImportError "cannot import name 'spawn'".

(** Importing the module raises something that is no [ImportError]. *)
Definition broken_module_error : exn := Exn (OtherException "SyntaxError") "invalid syntax".

(* ================================================================== *)
(** ** The float model against [SpecFloat] *)

(** On the sample values, [round_binary64] is the rounding of
    [SpecFloat.binary_normalize] at precision 53 and maximal exponent
    1024, and [fmul] is [SpecFloat.SFmul]. *)
Example round_binary64_agrees :
  forallb (fun me => agrees (round_binary64 (fst me) (snd me))
                            (binary_normalize 53 1024 (fst me) (snd me) false))
          rounding_samples = true.
Proof. vm_compute. reflexivity. Qed.

Example fmul_agrees :
  forallb (fun me => agrees (fmul (Finite (fst me) (snd me)) (of_Z 100))
                            (SFmul 53 1024
                               (binary_normalize 53 1024 (fst me) (snd me) false)
                               (binary_normalize 53 1024 100 0 false)))
          [ (0, 0); (1, 0); (37, -8); (1, -1); (5404319552844595, -54);
            (9007199254740991, -53); (1, -1074) ] = true.
Proof. vm_compute. reflexivity. Qed.

(* ================================================================== *)
(** ** Rounding *)

Lemma rhe_bounds n d : 0 < d -> n / d <= round_half_even n d <= n / d + 1.
Proof.
  intros Hd. unfold round_half_even.
  destruct ((d <? 2 * (n mod d)) || ((d =? 2 * (n mod d)) && Z.odd (n / d))); lia.
Qed.

Lemma rhe_error n d : 0 < d -> 2 * Z.abs (round_half_even n d * d - n) <= d.
Proof.
  intros Hd. unfold round_half_even.
  pose proof (Z.div_mod n d ltac:(lia)) as E.
  pose proof (Z.mod_pos_bound n d Hd) as B.
  set (q := n / d) in *. set (r := n mod d) in *.
  assert (Eup : (q + 1) * d - n = d - r) by lia.
  assert (Edn : q * d - n = - r) by lia.
  destruct (Z.ltb_spec d (2 * r)); cbn [orb andb].
  - rewrite Eup. lia.
  - destruct (Z.eqb_spec d (2 * r)); cbn [orb andb].
    + destruct (Z.odd q); [rewrite Eup | rewrite Edn]; lia.
    + rewrite Edn. lia.
Qed.

Lemma rhe_multiple k d : 0 < d -> round_half_even (k * d) d = k.
Proof.
  intros Hd. unfold round_half_even.
  rewrite Z.div_mul, Z.mod_mul by lia.
  replace (d <? 2 * 0) with false by (symmetry; apply Z.ltb_ge; lia).
  replace (d =? 2 * 0) with false by (symmetry; apply Z.eqb_neq; lia).
  reflexivity.
Qed.

Lemma rhe_le_multiple n k d : 0 < d -> n <= k * d -> round_half_even n d <= k.
Proof.
  intros Hd Hn. unfold round_half_even.
  pose proof (Z.div_mod n d ltac:(lia)) as E.
  pose proof (Z.mod_pos_bound n d Hd) as B.
  assert (n / d <= k) by nia.
  destruct (Z.ltb_spec d (2 * (n mod d))); cbn [orb andb]; [nia|].
  destruct (Z.eqb_spec d (2 * (n mod d))); cbn [orb andb]; [|lia].
  destruct (Z.odd (n / d)); [nia|lia].
Qed.

Lemma rhe_ge_multiple n k d : 0 < d -> k * d <= n -> k <= round_half_even n d.
Proof.
  intros Hd Hn.
  pose proof (rhe_bounds n d Hd).
  assert (k <= n / d) by (apply Z.div_le_lower_bound; lia).
  lia.
Qed.

Lemma rhe_scale n d k : 0 < d -> 0 < k ->
  round_half_even (n * k) (d * k) = round_half_even n d.
Proof.
  intros Hd Hk. unfold round_half_even.
  rewrite Z.div_mul_cancel_r by lia.
  rewrite Z.mul_mod_distr_r by lia.
  replace (d * k <? 2 * (n mod d * k)) with (d <? 2 * (n mod d)).
  2:{ destruct (Z.ltb_spec d (2 * (n mod d))); symmetry;
      [apply Z.ltb_lt | apply Z.ltb_ge]; nia. }
  replace (d * k =? 2 * (n mod d * k)) with (d =? 2 * (n mod d)).
  2:{ destruct (Z.eqb_spec d (2 * (n mod d))); symmetry;
      [apply Z.eqb_eq | apply Z.eqb_neq]; nia. }
  reflexivity.
Qed.

Lemma rhe_one n : round_half_even n 1 = n.
Proof. rewrite <- (Z.mul_1_r n) at 1. apply rhe_multiple. lia. Qed.

Lemma shift53_nonneg b : 0 <= shift53 b.
Proof. unfold shift53. lia. Qed.

Lemma sig53_small b : 0 < b -> b < 2 ^ 53 -> shift53 b = 0 /\ sig53 b = b.
Proof.
  intros Hb Hlt.
  assert (Z.log2 b < 53) by (apply Z.log2_lt_pow2; lia).
  assert (E : shift53 b = 0) by (unfold shift53; lia).
  split; [exact E|]. unfold sig53. rewrite E. apply rhe_one.
Qed.

Lemma sig53_range b : 0 < b -> 0 < shift53 b -> 2 ^ 52 <= sig53 b <= 2 ^ 53.
Proof.
  intros Hb Hs. unfold sig53.
  assert (Es : Z.log2 b = 52 + shift53 b) by (unfold shift53 in *; lia).
  destruct (Z.log2_spec b Hb) as [Lo Hi].
  rewrite Es in Lo.
  replace (Z.succ (Z.log2 b)) with (53 + shift53 b) in Hi by lia.
  rewrite Z.pow_add_r in Lo, Hi by lia.
  assert (0 < 2 ^ shift53 b) by (apply Z.pow_pos_nonneg; lia).
  split.
  - apply rhe_ge_multiple; lia.
  - apply rhe_le_multiple; lia.
Qed.

Lemma sig53_pos b : 0 < b -> 0 < sig53 b.
Proof.
  intros Hb. destruct (Z.eq_dec (shift53 b) 0) as [E|E].
  - unfold sig53. rewrite E, rhe_one. exact Hb.
  - pose proof (shift53_nonneg b).
    pose proof (sig53_range b Hb ltac:(lia)). lia.
Qed.

Lemma round_binary64_pos b e : 0 < b -> emin <= e ->
  round_binary64 b e =
    if emax <=? Z.log2 (sig53 b) + (e + shift53 b) then Inf false
    else Finite (sig53 b) (e + shift53 b).
Proof.
  intros Hb He. unfold round_binary64.
  rewrite Z.abs_eq by lia.
  replace (Z.max 0 (Z.max (Z.log2 b - (prec - 1)) (emin - e))) with (shift53 b)
    by (unfold shift53, prec; lia).
  fold (sig53 b).
  pose proof (sig53_pos b Hb).
  replace (sig53 b =? 0) with false by (symmetry; apply Z.eqb_neq; lia).
  replace (b <? 0) with false by (symmetry; apply Z.ltb_ge; lia).
  rewrite Z.sgn_pos by lia.
  rewrite Z.mul_1_l. reflexivity.
Qed.

Lemma nearest53_error b : 0 < b -> 2 * Z.abs (nearest53 b - b) <= 2 ^ shift53 b.
Proof.
  intros Hb. unfold nearest53, sig53. apply rhe_error.
  apply Z.pow_pos_nonneg; [lia | apply shift53_nonneg].
Qed.

Lemma nearest53_small b : 0 < b -> b < 2 ^ 53 -> nearest53 b = b.
Proof.
  intros Hb Hlt. unfold nearest53.
  destruct (sig53_small b Hb Hlt) as [-> ->]. lia.
Qed.

(* ================================================================== *)
(** ** The loop of [get_size] on floats *)

Lemma pow2_pos k : 0 <= k -> 0 < 2 ^ k.
Proof. intros. apply Z.pow_pos_nonneg; lia. Qed.

Lemma pow2_split a b : 0 <= a -> 0 <= b -> 2 ^ (a + b) = 2 ^ a * 2 ^ b.
Proof. intros. apply Z.pow_add_r; lia. Qed.

Lemma pow1024 j : 0 <= j -> 1024 ^ j = 2 ^ (10 * j).
Proof. intros. change 1024 with (2 ^ 10). rewrite <- Z.pow_mul_r by lia. reflexivity. Qed.

Lemma ltb_scale a b k : 0 < k -> (a * k <? b * k) = (a <? b).
Proof.
  intros Hk. destruct (Z.ltb_spec a b); [apply Z.ltb_lt | apply Z.ltb_ge]; nia.
Qed.

(** [x < 1024] on a finite float, on values scaled by [2^60]. *)
Lemma flt_1024_scaled m e : -60 <= e ->
  flt (Finite m e) (of_Z 1024) = (m * 2 ^ (e + 60) <? 2 ^ 70).
Proof.
  intros He. unfold flt, of_Z, dyadic_compare.
  destruct (Z.le_gt_cases e 0) as [Hneg|Hpos].
  - rewrite Z.min_l by lia.
    replace (e - e) with 0 by lia. rewrite Z.pow_0_r, Z.mul_1_r.
    replace (2 ^ 70) with (1024 * 2 ^ (0 - e) * 2 ^ (e + 60)).
    2:{ change 1024 with (2 ^ 10).
        rewrite <- !pow2_split by lia. f_equal. lia. }
    rewrite ltb_scale by (apply pow2_pos; lia).
    unfold Z.ltb. destruct (m ?= 1024 * 2 ^ (0 - e)); reflexivity.
  - rewrite Z.min_r by lia.
    rewrite !Z.sub_0_r, Z.pow_0_r, Z.mul_1_r.
    replace (2 ^ 70) with (1024 * 2 ^ 60) by reflexivity.
    rewrite pow2_split, Z.mul_assoc by lia.
    rewrite ltb_scale by (apply pow2_pos; lia).
    unfold Z.ltb. destruct (m * 2 ^ e ?= 1024); reflexivity.
Qed.

(** The hundredths of a non-negative finite float, on its scaled value. *)
Lemma to_hundredths_scaled m e : 0 <= m -> -60 <= e ->
  to_hundredths m e = round_half_even (100 * (m * 2 ^ (e + 60))) (2 ^ 60).
Proof.
  intros Hm He. unfold to_hundredths. rewrite Z.abs_eq by lia.
  destruct (Z.leb_spec 0 e).
  - rewrite pow2_split by lia.
    replace (100 * (m * (2 ^ e * 2 ^ 60))) with (m * 2 ^ e * 100 * 2 ^ 60) by ring.
    rewrite rhe_multiple by (apply pow2_pos; lia). reflexivity.
  - rewrite <- (rhe_scale (m * 100) (2 ^ (- e)) (2 ^ (e + 60)))
      by (apply pow2_pos; lia).
    rewrite <- pow2_split by lia.
    replace (- e + (e + 60)) with 60 by lia.
    f_equal. ring.
Qed.

(** Dividing a float by [1024] loses nothing while the result is normal. *)
Lemma div_1024_exact m e :
  0 < m <= 2 ^ 53 -> emin + 10 <= e -> Z.log2 m + (e - 10) < emax ->
  exists m' e',
    round_binary64 m (e - 10) = Finite m' e' /\
    0 < m' <= 2 ^ 53 /\ e - 10 <= e' /\
    Z.log2 m' + e' = Z.log2 m + (e - 10) /\
    m' * 2 ^ (e' - (e - 10)) = m.
Proof.
  intros Hm He Hfin.
  rewrite round_binary64_pos by lia.
  destruct (Z.eq_dec m (2 ^ 53)) as [E|E].
  - assert (Es : shift53 m = 1) by (subst m; reflexivity).
    assert (Eq : sig53 m = 2 ^ 52) by (subst m; reflexivity).
    rewrite Es, Eq.
    assert (El : Z.log2 m = 53) by (subst m; reflexivity).
    change (Z.log2 (2 ^ 52)) with 52.
    replace (emax <=? 52 + (e - 10 + 1)) with false
      by (symmetry; apply Z.leb_gt; lia).
    exists (2 ^ 52), (e - 10 + 1). repeat split; try lia.
    + change (Z.log2 (2 ^ 52)) with 52. lia.
    + replace (e - 10 + 1 - (e - 10)) with 1 by lia. subst m. reflexivity.
  - destruct (sig53_small m) as [Es Eq]; [lia | lia |].
    rewrite Es, Eq, Z.add_0_r.
    replace (emax <=? Z.log2 m + (e - 10)) with false
      by (symmetry; apply Z.leb_gt; lia).
    exists m, (e - 10). repeat split; try lia.
    rewrite Z.sub_diag. lia.
Qed.

Lemma get_size_loop_float us j B m e :
  1 <= j -> j + Z.of_nat (List.length us) <= 6 ->
  0 < m <= 2 ^ 53 -> - (10 * j) <= e -> Z.log2 m + e < emax ->
  m * 2 ^ (e + 60) = B * 2 ^ (60 - 10 * j) ->
  get_size_loop us (PyFloat (Finite m e)) = Returns (size_text_loop us j B).
Proof.
  revert j m e. induction us as [|unit us IH]; intros j m e Hj Hlen Hm He Hfin Hval.
  - reflexivity.
  - cbn [List.length] in Hlen.
    cbn [get_size_loop size_text_loop lt_1024].
    rewrite flt_1024_scaled by lia.
    rewrite Hval.
    replace (2 ^ 70) with (1024 ^ (j + 1) * 2 ^ (60 - 10 * j)).
    2:{ rewrite pow1024 by lia. rewrite <- pow2_split by lia. f_equal. lia. }
    rewrite ltb_scale by (apply pow2_pos; lia).
    destruct (Z.ltb_spec B (1024 ^ (j + 1))) as [Hlt|Hge].
    + cbn [format_2f obind format_2f_float].
      replace (m <? 0) with false by (symmetry; apply Z.ltb_ge; lia).
      rewrite to_hundredths_scaled by lia.
      rewrite Hval.
      replace (2 ^ 60) with (1024 ^ j * 2 ^ (60 - 10 * j)).
      2:{ rewrite pow1024 by lia. rewrite <- pow2_split by lia. f_equal. lia. }
      rewrite Z.mul_assoc.
      rewrite rhe_scale.
      * reflexivity.
      * rewrite pow1024 by lia. apply pow2_pos. lia.
      * apply pow2_pos. lia.
    + cbn [truediv_1024 obind].
      destruct (div_1024_exact m e) as (m' & e' & Er & Hm' & He' & Hl' & Hv');
        [lia | unfold emin; lia | lia |].
      rewrite Er.
      apply IH; try lia.
      assert (P1 : 2 ^ (e + 60) = 2 ^ (e + 50) * 1024).
      { replace (e + 60) with (e + 50 + 10) by lia.
        rewrite pow2_split by lia. reflexivity. }
      assert (P2 : 2 ^ (e' + 60) = 2 ^ (e' - (e - 10)) * 2 ^ (e + 50)).
      { rewrite <- pow2_split by lia. f_equal. lia. }
      assert (P3 : 2 ^ (60 - 10 * j) = 2 ^ (60 - 10 * (j + 1)) * 1024).
      { replace (60 - 10 * j) with (60 - 10 * (j + 1) + 10) by lia.
        rewrite pow2_split by lia. reflexivity. }
      rewrite P1, P3, <- Hv' in Hval. rewrite P2.
      set (X := 2 ^ (e + 50)) in *. set (D := 2 ^ (e' - (e - 10))) in *.
      set (Y := 2 ^ (60 - 10 * (j + 1))) in *.
      lia.
Qed.

Lemma get_size_loop_cons unit us bytes :
  get_size_loop (unit :: us) bytes =
    if lt_1024 bytes then
      obind (format_2f bytes) (fun s => Returns (Some (s ++ unit ++ "B")))
    else obind (truediv_1024 bytes) (get_size_loop us).
Proof. reflexivity. Qed.

(** [get_size] on a non-negative [int], case by case. *)
Lemma get_size_int b : 0 <= b ->
  get_size (PyInt b) =
    if b <? 1024 then Returns (Some (hundredths (100 * b) ++ "B"))
    else if emax <=? Z.log2 (sig53 b) + (shift53 b - 10) then
      Raises (Exn OverflowError "integer division result too large for a float")
    else Returns (size_text_loop ["K"; "M"; "G"; "T"; "P"] 1 (nearest53 b)).
Proof.
  intros Hb. unfold get_size, units. rewrite get_size_loop_cons.
  cbn [lt_1024].
  destruct (Z.ltb_spec b 1024) as [Hlt|Hge].
  - cbn [format_2f]. unfold float_of_int.
    destruct (Z.eq_dec b 0) as [->|Hnz]; [reflexivity|].
    rewrite round_binary64_pos by (unfold emin; lia).
    destruct (sig53_small b) as [Es Eq]; [lia | lia |].
    rewrite Es, Eq, !Z.add_0_r.
    assert (Z.log2 b < 53) by (apply Z.log2_lt_pow2; lia).
    replace (emax <=? Z.log2 b) with false
      by (symmetry; apply Z.leb_gt; unfold emax; lia).
    cbn [obind format_2f_float].
    replace (b <? 0) with false by (symmetry; apply Z.ltb_ge; lia).
    unfold to_hundredths. cbn [Z.leb Z.compare].
    rewrite Z.abs_eq by lia.
    replace (b * 2 ^ 0 * 100) with (100 * b) by (rewrite Z.pow_0_r; ring).
    reflexivity.
  - cbn [truediv_1024].
    rewrite round_binary64_pos by (unfold emin; lia).
    replace (-10 + shift53 b) with (shift53 b - 10) by lia.
    destruct (Z.leb_spec emax (Z.log2 (sig53 b) + (shift53 b - 10))) as [Hov|Hfin];
      [reflexivity|].
    cbn [obind].
    pose proof (shift53_nonneg b).
    apply get_size_loop_float; cbn [List.length]; try lia.
    + destruct (Z.eq_dec (shift53 b) 0) as [E|E].
      * unfold sig53. rewrite E, rhe_one.
        assert (Z.log2 b < 53) by (unfold shift53 in E; lia).
        assert (b < 2 ^ 53) by (apply Z.log2_lt_pow2; lia). lia.
      * pose proof (sig53_range b ltac:(lia) ltac:(lia)). lia.
    + unfold nearest53.
      replace (shift53 b - 10 + 60) with (shift53 b + 50) by lia.
      rewrite pow2_split by lia.
      replace (60 - 10 * 1) with 50 by lia. ring.
Qed.

(* ================================================================== *)
(** ** Reading a size text back *)

Lemma append_assoc (a b c : string) : ((a ++ b) ++ c)%string = (a ++ (b ++ c))%string.
Proof. induction a as [|x a IH]; cbn; [reflexivity | now rewrite IH]. Qed.

Lemma span_digits_uint (u : uint) (c : ascii) (rest : string) :
  is_digit c = false ->
  span_digits (NilEmpty.string_of_uint u ++ String c rest)
  = (NilEmpty.string_of_uint u, String c rest).
Proof.
  intros Hc. induction u as [|u IH|u IH|u IH|u IH|u IH|u IH|u IH|u IH|u IH|u IH];
    cbn [NilEmpty.string_of_uint append span_digits];
    [rewrite Hc; reflexivity | change (is_digit _) with true; cbn iota; rewrite IH; reflexivity ..].
Qed.

Lemma to_uint_nonnil (n : N) : N.to_uint n <> Nil.
Proof.
  destruct n as [|p]; cbn; [discriminate | apply DecimalPos.Unsigned.to_uint_nonnil].
Qed.

Lemma dec_digits (n : Z) : dec n = NilEmpty.string_of_uint (N.to_uint (Z.to_N n)).
Proof.
  unfold dec, NilZero.string_of_uint.
  pose proof (to_uint_nonnil (Z.to_N n)).
  destruct (N.to_uint (Z.to_N n)); congruence.
Qed.

(** Reading [dec n] back gives [n]. *)
Lemma dec_read (n : Z) : 0 <= n ->
  option_map (fun u => Z.of_N (N.of_uint u)) (NilZero.uint_of_string (dec n)) = Some n.
Proof.
  intros Hn. unfold dec. rewrite NilZero.usu by apply to_uint_nonnil.
  cbn. rewrite DecimalN.Unsigned.of_to. f_equal. lia.
Qed.

Lemma dec_inj (n n' : Z) : 0 <= n -> 0 <= n' -> dec n = dec n' -> n = n'.
Proof.
  intros Hn Hn' E.
  pose proof (dec_read n Hn) as R. rewrite E, dec_read in R by assumption.
  congruence.
Qed.

Lemma digit_value_digit (x : Z) : 0 <= x < 10 -> digit_value (digit x) = Some x.
Proof.
  intros Hx. unfold digit_value, is_digit, digit.
  rewrite N_ascii_embedding by lia.
  replace ((48 <=? 48 + Z.to_N x)%N && (48 + Z.to_N x <=? 57)%N) with true.
  - f_equal. lia.
  - symmetry. apply andb_true_intro. split; apply N.leb_le; lia.
Qed.

Lemma unit_index_units (k : nat) : (k < 6)%nat ->
  unit_index units (nth k units "" ++ "B") = Some k.
Proof.
  intros Hk.
  do 6 (destruct k as [|k]; [reflexivity|]). lia.
Qed.

Lemma hundredths_digits (c : Z) :
  100 * (c / 100) + 10 * (c / 10 mod 10) + c mod 10 = c.
Proof.
  replace (c / 100) with (c / 10 / 10) by (rewrite Z.div_div by lia; reflexivity).
  pose proof (Z.div_mod c 10 ltac:(lia)).
  pose proof (Z.div_mod (c / 10) 10 ltac:(lia)).
  lia.
Qed.

(** A text of [c] hundredths with the [k]-th unit reads back as [(c, k)]. *)
Lemma parse_size_hundredths (c : Z) (k : nat) : 0 <= c -> (k < 6)%nat ->
  parse_size (hundredths c ++ nth k units "" ++ "B") = Some (c, k).
Proof.
  intros Hc Hk. unfold parse_size, hundredths.
  rewrite append_assoc. cbn [append].
  rewrite dec_digits at 1.
  rewrite span_digits_uint by reflexivity.
  rewrite <- dec_digits.
  pose proof (dec_read (c / 100) ltac:(apply Z.div_pos; lia)) as R.
  destruct (NilZero.uint_of_string (dec (c / 100))) as [u|]; [|discriminate].
  cbn in R. injection R as R.
  rewrite !digit_value_digit by (apply Z.mod_pos_bound; lia).
  rewrite unit_index_units by assumption.
  rewrite R. f_equal. f_equal. apply hundredths_digits.
Qed.

(* ================================================================== *)
(** ** The unit formatter: claims *)

Lemma nearest53_exact b : 0 <= b < 2 ^ 53 -> nearest53 b = b.
Proof.
  intros [H0 Hlt]. destruct (Z.eq_dec b 0) as [->|Hnz]; [reflexivity|].
  apply nearest53_small; lia.
Qed.

Lemma shift53_below b s : 0 < b -> 52 <= s -> b < 2 ^ (s + 1) -> shift53 b <= s - 52.
Proof.
  intros Hb Hs Hlt.
  assert (Z.log2 b < s + 1) by (apply Z.log2_lt_pow2; lia).
  unfold shift53. lia.
Qed.

(** Rounding to a float does not cross a power of two. *)
Lemma nearest53_ge_pow2 b t : 0 <= t -> 2 ^ t <= b -> 2 ^ t <= nearest53 b.
Proof.
  intros Ht Hb.
  assert (Hpos : 0 < b) by (pose proof (pow2_pos t Ht); lia).
  pose proof (shift53_nonneg b) as Hs.
  pose proof (pow2_pos (shift53 b) Hs) as Hd.
  unfold nearest53.
  destruct (Z.le_gt_cases (shift53 b) t) as [Hle|Hgt].
  - replace t with (t - shift53 b + shift53 b) in Hb |- * by lia.
    rewrite pow2_split in Hb |- * by lia.
    apply Z.mul_le_mono_nonneg_r; [lia|].
    apply rhe_ge_multiple; assumption.
  - pose proof (sig53_range b Hpos ltac:(lia)) as [Hlo _].
    assert (2 ^ t <= 2 ^ shift53 b) by (apply Z.pow_le_mono_r; lia).
    assert (1 <= sig53 b) by (pose proof (pow2_pos 52 ltac:(lia)); lia).
    nia.
Qed.

Lemma size_text_loop_some us j B :
  0 <= j -> 1024 ^ j <= B < 1024 ^ (j + Z.of_nat (List.length us)) ->
  exists i : nat,
    (i < List.length us)%nat /\
    size_text_loop us j B =
      Some (hundredths (round_half_even (100 * B) (1024 ^ (j + Z.of_nat i)))
              ++ nth i us "" ++ "B").
Proof.
  revert j. induction us as [|unit us IH]; intros j Hj HB.
  - cbn [List.length Z.of_nat] in HB. rewrite Z.add_0_r in HB. lia.
  - cbn [size_text_loop].
    destruct (Z.ltb_spec B (1024 ^ (j + 1))) as [Hlt|Hge].
    + exists O. split; [cbn; lia|]. cbn [nth Z.of_nat]. rewrite Z.add_0_r. reflexivity.
    + destruct (IH (j + 1)) as (i & Hi & E); [lia | |].
      * cbn [List.length] in HB. rewrite Nat2Z.inj_succ in HB.
        replace (j + 1 + Z.of_nat (List.length us))
          with (j + Z.succ (Z.of_nat (List.length us))) by lia.
        lia.
      * exists (S i). split; [cbn; lia|]. rewrite E. cbn [nth].
        rewrite Nat2Z.inj_succ.
        replace (j + 1 + Z.of_nat i) with (j + Z.succ (Z.of_nat i)) by lia.
        reflexivity.
Qed.

Lemma size_text_loop_none us j B :
  0 <= j -> 1024 ^ (j + Z.of_nat (List.length us)) <= B ->
  size_text_loop us j B = None.
Proof.
  revert j. induction us as [|unit us IH]; intros j Hj HB; [reflexivity|].
  cbn [size_text_loop].
  cbn [List.length] in HB. rewrite Nat2Z.inj_succ in HB.
  assert (1024 ^ (j + 1) <= 1024 ^ (j + Z.succ (Z.of_nat (List.length us))))
    by (apply Z.pow_le_mono_r; lia).
  replace (B <? 1024 ^ (j + 1)) with false by (symmetry; apply Z.ltb_ge; lia).
  apply IH; [lia|].
  replace (j + 1 + Z.of_nat (List.length us))
    with (j + Z.succ (Z.of_nat (List.length us))) by lia.
  exact HB.
Qed.

(** C2.  The four sample values of the unit formatter: [get_size(0)] is
    ["0.00B"], [get_size(1024)] is ["1.00KB"], [get_size(1536)] is
    ["1.50KB"] and [get_size(1024**3)] is ["1.00GB"]. *)
Theorem get_size_samples :
  get_size (PyInt 0) = Returns (Some "0.00B") /\
  get_size (PyInt 1024) = Returns (Some "1.00KB") /\
  get_size (PyInt 1536) = Returns (Some "1.50KB") /\
  get_size (PyInt (1024 ^ 3)) = Returns (Some "1.00GB").
Proof. repeat split; vm_compute; reflexivity. Qed.

(** C1, as amended.  For every integer byte count [0 <= b < 1024^6 - 64],
    [get_size b] returns a text ["<value><unit>B"]: [value] has two
    decimals ([c] hundredths), [unit] is the [k]-th of the six suffixes,
    the text reads back as [(c, k)], and [c / 100 * 1024^k] is within half
    a hundredth of a unit of [float(b)], the binary64 number nearest to
    [b]; that number is [b] itself below [2^53] and at most [64] away from
    it otherwise. *)
Theorem get_size_text_below_limit (b : Z) :
  0 <= b < 1024 ^ 6 - 64 ->
  exists (c : Z) (k : nat),
    (k < 6)%nat /\ 0 <= c /\
    get_size (PyInt b) = Returns (Some (hundredths c ++ nth k units "" ++ "B")) /\
    parse_size (hundredths c ++ nth k units "" ++ "B") = Some (c, k) /\
    2 * Z.abs (c * 1024 ^ Z.of_nat k - 100 * nearest53 b) <= 1024 ^ Z.of_nat k /\
    Z.abs (nearest53 b - b) <= 64 /\
    (b < 2 ^ 53 -> nearest53 b = b).
Proof.
  intros [H0 Hlt].
  change (1024 ^ 6) with (2 ^ 60) in Hlt.
  assert (Herr : Z.abs (nearest53 b - b) <= 64).
  { destruct (Z.eq_dec b 0) as [->|Hnz]; [vm_compute; discriminate|].
    pose proof (nearest53_error b ltac:(lia)) as He.
    pose proof (shift53_below b 59 ltac:(lia) ltac:(lia) ltac:(cbn; lia)) as Hs.
    pose proof (shift53_nonneg b).
    assert (2 ^ shift53 b <= 2 ^ (59 - 52)) by (apply Z.pow_le_mono_r; lia).
    change (2 ^ (59 - 52)) with 128 in *. lia. }
  rewrite get_size_int by lia.
  destruct (Z.ltb_spec b 1024) as [Hsmall|Hbig].
  - exists (100 * b), O.
    rewrite nearest53_exact by (change (2 ^ 53) with 9007199254740992; lia).
    split; [lia|]. split; [lia|]. split; [reflexivity|].
    split; [apply (parse_size_hundredths (100 * b) 0); lia|].
    split; [|split; [lia | intros _; reflexivity]].
    cbn [Z.of_nat]. rewrite Z.pow_0_r. lia.
  - pose proof (shift53_below b 59 ltac:(lia) ltac:(lia) ltac:(cbn; lia)) as Hs.
    pose proof (shift53_nonneg b) as Hs0.
    assert (Hsig : 0 < sig53 b <= 2 ^ 53).
    { destruct (Z.eq_dec (shift53 b) 0) as [E|E].
      - unfold sig53. rewrite E, rhe_one.
        assert (Z.log2 b < 53) by (unfold shift53 in E; lia).
        assert (b < 2 ^ 53) by (apply Z.log2_lt_pow2; lia). lia.
      - pose proof (sig53_range b ltac:(lia) ltac:(lia)).
        pose proof (pow2_pos 52 ltac:(lia)). lia. }
    assert (Z.log2 (sig53 b) <= 53).
    { change 53 with (Z.log2 (2 ^ 53)). apply Z.log2_le_mono. lia. }
    replace (emax <=? Z.log2 (sig53 b) + (shift53 b - 10)) with false
      by (symmetry; apply Z.leb_gt; unfold emax; lia).
    assert (HB : 1024 ^ 1 <= nearest53 b < 1024 ^ (1 + Z.of_nat 5)).
    { split.
      - change (1024 ^ 1) with (2 ^ 10). apply nearest53_ge_pow2; [lia|].
        change (2 ^ 10) with 1024. lia.
      - change (1024 ^ (1 + Z.of_nat 5)) with 1152921504606846976.
        change (2 ^ 60) with 1152921504606846976 in Hlt. lia. }
    destruct (size_text_loop_some ["K"; "M"; "G"; "T"; "P"] 1 (nearest53 b))
      as (i & Hi & E); [lia | exact HB |].
    cbn [List.length] in Hi.
    set (c := round_half_even (100 * nearest53 b) (1024 ^ (1 + Z.of_nat i))) in *.
    assert (Hd : 0 < 1024 ^ (1 + Z.of_nat i)) by (apply Z.pow_pos_nonneg; lia).
    assert (Hc : 0 <= c).
    { pose proof (rhe_bounds (100 * nearest53 b) _ Hd).
      assert (0 <= 100 * nearest53 b / 1024 ^ (1 + Z.of_nat i))
        by (apply Z.div_pos; lia).
      fold c in H0. lia. }
    exists c, (S i).
    replace (Z.of_nat (S i)) with (1 + Z.of_nat i) by lia.
    split; [lia|]. split; [exact Hc|]. split; [rewrite E; reflexivity|].
    split; [apply parse_size_hundredths; lia|].
    split; [apply rhe_error; exact Hd|].
    split; [exact Herr|].
    intros Hb53. apply nearest53_exact. lia.
Qed.

(** A byte count the amended C1 covers: [1536]. *)
Lemma get_size_text_below_limit_witness :
  exists (c : Z) (k : nat),
    (k < 6)%nat /\ 0 <= c /\
    get_size (PyInt 1536) = Returns (Some (hundredths c ++ nth k units "" ++ "B")) /\
    parse_size (hundredths c ++ nth k units "" ++ "B") = Some (c, k) /\
    2 * Z.abs (c * 1024 ^ Z.of_nat k - 100 * nearest53 1536) <= 1024 ^ Z.of_nat k /\
    Z.abs (nearest53 1536 - 1536) <= 64 /\
    (1536 < 2 ^ 53 -> nearest53 1536 = 1536).
Proof.
  apply (get_size_text_below_limit 1536). vm_compute. split; [discriminate | reflexivity].
Defined.

(** C1 fails as stated.  [2^60 - 1] is below [1024^6], yet its first
    division by [1024] rounds to [2^50], no test [bytes < 1024] succeeds and
    [get_size] returns [None].  And for [b = 9024087753343631] the text is
    ["8.02PB"], more than half a hundredth of a [PB] away from [b], because
    [float(b)] is [b + 1]. *)
Lemma get_size_below_limit_counterexample :
  (0 <= 2 ^ 60 - 1 < 1024 ^ 6 /\ get_size (PyInt (2 ^ 60 - 1)) = Returns None) /\
  (0 <= 9024087753343631 < 1024 ^ 6 /\
   get_size (PyInt 9024087753343631) = Returns (Some "8.02PB") /\
   parse_size "8.02PB" = Some (802, 5%nat) /\
   1024 ^ 5 < 2 * Z.abs (802 * 1024 ^ 5 - 100 * 9024087753343631)).
Proof.
  repeat split; vm_compute; try reflexivity; discriminate.
Qed.

Lemma rhe_up n d :
  0 < d -> d <= 2 * (n mod d) -> Z.odd (n / d) = true ->
  round_half_even n d = n / d + 1.
Proof.
  intros Hd Hr Hodd. unfold round_half_even. rewrite Hodd.
  destruct (Z.ltb_spec d (2 * (n mod d))); cbn [orb andb]; [reflexivity|].
  replace (d =? 2 * (n mod d)) with true by (symmetry; apply Z.eqb_eq; lia).
  reflexivity.
Qed.

(** From [2^60] on, the first division overflows exactly from
    [2^1034 - 2^980] on: the least [b] with [b / 1024] rounding to
    [2^1024]. *)
Lemma overflow_test b : 2 ^ 60 <= b ->
  (emax <=? Z.log2 (sig53 b) + (shift53 b - 10)) = (2 ^ 1034 - 2 ^ 980 <=? b).
Proof.
  intros Hb.
  assert (Hpos : 0 < b) by (pose proof (pow2_pos 60 ltac:(lia)); lia).
  assert (HL : 60 <= Z.log2 b) by (apply Z.log2_le_pow2; lia).
  assert (Es : shift53 b = Z.log2 b - 52) by (unfold shift53; lia).
  pose proof (sig53_range b Hpos ltac:(lia)) as [Slo Shi].
  assert (Llo : 52 <= Z.log2 (sig53 b)).
  { change 52 with (Z.log2 (2 ^ 52)) at 1. apply Z.log2_le_mono. exact Slo. }
  assert (Lhi : Z.log2 (sig53 b) <= 53).
  { change 53 with (Z.log2 (2 ^ 53)). apply Z.log2_le_mono. exact Shi. }
  assert (P1 : 2 ^ 1034 = 2 ^ 53 * 2 ^ 981) by (rewrite <- pow2_split by lia; reflexivity).
  assert (P2 : 2 ^ 981 = 2 * 2 ^ 980)
    by (change 981 with (1 + 980); rewrite pow2_split by lia; reflexivity).
  pose proof (pow2_pos 980 ltac:(lia)) as Hh.
  pose proof (pow2_pos 53 ltac:(lia)) as H53.
  unfold emax.
  destruct (Z.leb_spec (2 ^ 1034 - 2 ^ 980) b) as [Hov|Hfin].
  - apply Z.leb_le.
    assert (1033 <= Z.log2 b).
    { apply Z.log2_le_pow2; [lia|].
      assert (P3 : 2 ^ 1034 = 2 * 2 ^ 1033)
        by (change 1034 with (1 + 1033); rewrite pow2_split by lia; reflexivity).
      assert (2 ^ 980 <= 2 ^ 1033) by (apply Z.pow_le_mono_r; lia).
      lia. }
    destruct (Z.eq_dec (Z.log2 b) 1033) as [E|E]; [|lia].
    assert (Eq : sig53 b = 2 ^ 53); [|rewrite Eq; change (Z.log2 (2 ^ 53)) with 53; lia].
    unfold sig53. rewrite Es, E. change (1033 - 52) with 981.
    destruct (Z.log2_spec b Hpos) as [_ Hlt]. rewrite E in Hlt.
    change (Z.succ 1033) with 1034 in Hlt.
    set (D := 2 ^ 981) in *. set (HF := 2 ^ 980) in *. set (T := 2 ^ 53) in *.
    assert (Todd : Z.odd (T - 1) = true) by reflexivity.
    rewrite P1 in Hov, Hlt.
    pose proof (Z.div_mod b D ltac:(lia)) as Ed.
    pose proof (Z.mod_pos_bound b D ltac:(lia)) as Bd.
    assert (Eqq : b / D = T - 1) by nia.
    rewrite rhe_up; [lia | lia | | rewrite Eqq; exact Todd].
    rewrite Eqq in Ed. lia.
  - apply Z.leb_gt.
    assert (Z.log2 b < 1034).
    { apply Z.log2_lt_pow2; [lia|]. lia. }
    destruct (Z.eq_dec (Z.log2 b) 1033) as [E|E]; [|lia].
    assert (sig53 b < 2 ^ 53); [|assert (Z.log2 (sig53 b) < 53)
      by (apply Z.log2_lt_pow2; lia); lia].
    pose proof (nearest53_error b Hpos) as He.
    unfold nearest53 in He. rewrite Es, E in He. change (1033 - 52) with 981 in He.
    set (D := 2 ^ 981) in *. set (HF := 2 ^ 980) in *. set (T := 2 ^ 53) in *.
    rewrite P1 in Hfin.
    destruct (Z.eq_dec (sig53 b) T) as [Et|Et]; [|lia].
    rewrite Et in He. lia.
Qed.

(** C3, as amended.  For every integer byte count [b >= 1024^6],
    [get_size b] produces no formatted text: below [2^1034 - 2^980] it
    exhausts its six suffixes and returns [None]; from there on its first
    division [bytes / 1024] exceeds the float range and raises
    [OverflowError]. *)
Theorem get_size_beyond_P (b : Z) :
  1024 ^ 6 <= b ->
  (b < 2 ^ 1034 - 2 ^ 980 -> get_size (PyInt b) = Returns None) /\
  (2 ^ 1034 - 2 ^ 980 <= b ->
   get_size (PyInt b)
   = Raises (Exn OverflowError "integer division result too large for a float")) /\
  (forall s, get_size (PyInt b) <> Returns (Some s)).
Proof.
  intros Hb. change (1024 ^ 6) with (2 ^ 60) in Hb.
  assert (Hpos : 1024 <= b) by (change (2 ^ 60) with 1152921504606846976 in Hb; lia).
  rewrite get_size_int by lia.
  replace (b <? 1024) with false by (symmetry; apply Z.ltb_ge; lia).
  rewrite overflow_test by exact Hb.
  assert (HN : size_text_loop ["K"; "M"; "G"; "T"; "P"] 1 (nearest53 b) = None).
  { apply size_text_loop_none; [lia|].
    change (1024 ^ (1 + Z.of_nat (List.length ["K"; "M"; "G"; "T"; "P"]))) with (2 ^ 60).
    apply nearest53_ge_pow2; [lia | exact Hb]. }
  rewrite HN.
  destruct (Z.leb_spec (2 ^ 1034 - 2 ^ 980) b) as [Hov|Hfin].
  - split; [lia|]. split; [reflexivity | discriminate].
  - split; [reflexivity|]. split; [lia | discriminate].
Qed.

(** A byte count C3 speaks of: [1024^6] itself. *)
Lemma get_size_beyond_P_witness :
  get_size (PyInt (1024 ^ 6)) = Returns None.
Proof.
  apply (get_size_beyond_P (1024 ^ 6)); vm_compute; [discriminate | reflexivity].
Defined.

(** C3 fails as stated.  [2^1034] is beyond the [P] suffix, yet [get_size]
    does not exhaust its loop there: the first [bytes /= 1024] raises
    [OverflowError]. *)
Lemma get_size_beyond_P_counterexample :
  1024 ^ 6 <= 2 ^ 1034 /\
  get_size (PyInt (2 ^ 1034)) <> Returns None /\
  get_size (PyInt (2 ^ 1034))
  = Raises (Exn OverflowError "integer division result too large for a float").
Proof.
  repeat split; vm_compute; discriminate.
Qed.

(* ================================================================== *)
(** ** Runs of programs *)

Section RunLemmas.

Context {A B : Type} (w : world).

Lemma run_bind (p : prog A) (f : A -> prog B) :
  run w (bind p f) =
    match run w p with
    | (t, Returns a) => let (t', o) := run w (f a) in ((t ++ t')%list, o)
    | (t, Raises e) => (t, Raises e)
    end.
Proof.
  induction p as [a|e|X ev k IH]; cbn [bind run].
  - destruct (run w (f a)); reflexivity.
  - reflexivity.
  - rewrite IH. destruct (run w (k (w X ev))) as [t [a|e]].
    + destruct (run w (f a)); reflexivity.
    + reflexivity.
Qed.

Lemma result_bind (p : prog A) (f : A -> prog B) :
  result w (bind p f) =
    match result w p with
    | Returns a => result w (f a)
    | Raises e => Raises e
    end.
Proof.
  unfold result. rewrite run_bind.
  destruct (run w p) as [t [a|e]]; cbn [snd]; [|reflexivity].
  destruct (run w (f a)); reflexivity.
Qed.

Lemma trace_bind (p : prog A) (f : A -> prog B) :
  trace w (bind p f) =
    match result w p with
    | Returns a => (trace w p ++ trace w (f a))%list
    | Raises e => trace w p
    end.
Proof.
  unfold trace, result. rewrite run_bind.
  destruct (run w p) as [t [a|e]]; cbn [fst snd]; [|reflexivity].
  destruct (run w (f a)); reflexivity.
Qed.

End RunLemmas.

Lemma result_try_except {A : Type} (w : world) (p : prog A) (h : exn -> prog A) :
  result w (try_except p h) =
    match result w p with
    | Returns a => Returns a
    | Raises e => result w (h e)
    end.
Proof.
  unfold result.
  induction p as [a|e|X ev k IH]; cbn [try_except run snd]; try reflexivity.
  specialize (IH (w X ev)).
  destruct (run w (try_except (k (w X ev)) h)) as [t o].
  destruct (run w (k (w X ev))) as [t' [a|e]]; cbn [snd] in *; exact IH.
Qed.

Lemma trace_try_except {A : Type} (w : world) (p : prog A) (h : exn -> prog A) :
  trace w (try_except p h) =
    match result w p with
    | Returns a => trace w p
    | Raises e => (trace w p ++ trace w (h e))%list
    end.
Proof.
  unfold trace, result.
  induction p as [a|e|X ev k IH]; cbn [try_except run fst snd]; try reflexivity.
  specialize (IH (w X ev)).
  destruct (run w (try_except (k (w X ev)) h)) as [t o].
  destruct (run w (k (w X ev))) as [t' [a|e]]; cbn [fst snd] in *;
    rewrite IH; reflexivity.
Qed.

Lemma stdout_app (t t' : list call) : stdout (t ++ t') = (stdout t ++ stdout t')%list.
Proof.
  induction t as [|[X ev] t IH]; [reflexivity|].
  destruct ev; simpl; rewrite ?IH; reflexivity.
Qed.

(* ================================================================== *)
(** ** Dictionaries *)

Lemma mem_keys (k : string) (d : dict) :
  Dict.mem k d = true <-> In k (Dict.keys d).
Proof.
  unfold Dict.mem, Dict.keys. rewrite existsb_exists. split.
  - intros [[k' v] [Hin E]]. cbn in E. apply String.eqb_eq in E. subst.
    apply (in_map fst) in Hin. exact Hin.
  - intros Hin. apply in_map_iff in Hin as [[k' v] [E Hin]]. cbn in E. subst.
    exists (k, v). split; [exact Hin | apply String.eqb_refl].
Qed.

Lemma mem_false_keys (k : string) (d : dict) :
  Dict.mem k d = false <-> ~ In k (Dict.keys d).
Proof.
  rewrite <- mem_keys. destruct (Dict.mem k d); split; congruence.
Qed.

(** A new key goes to the end. *)
Lemma set_fresh (d : dict) (k : string) (v : value) :
  Dict.mem k d = false -> Dict.set d k v = (d ++ [(k, v)])%list.
Proof.
  induction d as [|[k' v'] d IH]; intros Hm; [reflexivity|].
  unfold Dict.mem in Hm. cbn [existsb fst] in Hm.
  apply orb_false_iff in Hm as [Hk Hd].
  simpl. rewrite Hk. f_equal. apply IH. exact Hd.
Qed.

(** The keys after [d[k] = v]. *)
Lemma keys_set (d : dict) (k : string) (v : value) :
  Dict.keys (Dict.set d k v) =
    if Dict.mem k d then Dict.keys d else (Dict.keys d ++ [k])%list.
Proof.
  induction d as [|[k' v'] d IH]; [reflexivity|].
  cbn [Dict.set]. unfold Dict.mem. cbn [existsb fst]. fold (Dict.mem k d).
  destruct (String.eqb_spec k' k) as [->|Hne]; cbn [orb Dict.keys map fst].
  - reflexivity.
  - fold (Dict.keys (Dict.set d k v)). rewrite IH.
    destruct (Dict.mem k d); reflexivity.
Qed.

Lemma in_set (d : dict) (k : string) (v : value) (k0 : string) (v0 : value) :
  In (k0, v0) (Dict.set d k v) -> (k0, v0) = (k, v) \/ In (k0, v0) d.
Proof.
  induction d as [|[k' v'] d IH]; cbn [Dict.set].
  - intros [E|[]]. left. congruence.
  - destruct (String.eqb_spec k' k) as [->|Hne]; intros [E|Hin].
    + left. congruence.
    + right. right. exact Hin.
    + right. left. exact E.
    + destruct (IH Hin) as [E|Hin']; [left; exact E | right; right; exact Hin'].
Qed.

(** Assigning entries with new, pairwise distinct keys appends them. *)
Lemma fold_set_fresh (entries d : dict) :
  NoDup (Dict.keys entries) ->
  (forall k, In k (Dict.keys entries) -> Dict.mem k d = false) ->
  fold_left set_entry entries d = (d ++ entries)%list.
Proof.
  revert d. induction entries as [|[k v] entries IH]; intros d Hnd Hfresh.
  - cbn. now rewrite List.app_nil_r.
  - cbn [fold_left]. unfold set_entry at 2. cbn [fst snd].
    rewrite set_fresh by (apply Hfresh; left; reflexivity).
    cbn [Dict.keys map fst] in Hnd. inversion Hnd as [|k0 ks Hnotin Hnd']; subst.
    rewrite IH.
    + rewrite <- List.app_assoc. reflexivity.
    + exact Hnd'.
    + intros k' Hin. apply mem_false_keys.
      unfold Dict.keys. rewrite map_app. cbn [map fst]. intros Hin'.
      apply in_app_or in Hin'. destruct Hin' as [Hin'|[E|[]]].
      * apply mem_keys in Hin'. rewrite Hfresh in Hin' by (right; exact Hin).
        discriminate.
      * subst k'. exact (Hnotin Hin).
Qed.

Lemma fold_left_map_entries {A : Type} (f : A -> string * value) (l : list A) (d : dict) :
  fold_left (fun d x => Dict.set d (fst (f x)) (snd (f x))) l d
  = fold_left set_entry (map f l) d.
Proof.
  revert d. induction l as [|x l IH]; intros d; [reflexivity|].
  cbn [fold_left map]. rewrite IH. reflexivity.
Qed.

Lemma enumerate_from_fst {A : Type} (l : list A) (start : nat) :
  map fst (combine (seq start (List.length l)) l) = seq start (List.length l).
Proof.
  revert start. induction l as [|x l IH]; intros start; [reflexivity|].
  cbn. f_equal. apply IH.
Qed.

Lemma enumerate_from_snd {A : Type} (l : list A) (start : nat) :
  map snd (combine (seq start (List.length l)) l) = l.
Proof.
  revert start. induction l as [|x l IH]; intros start; [reflexivity|].
  cbn. f_equal. apply IH.
Qed.

Lemma enumerate_length {A : Type} (l : list A) :
  List.length (enumerate l) = List.length l.
Proof.
  unfold enumerate. rewrite length_combine, length_seq. apply Nat.min_id.
Qed.

(* ================================================================== *)
(** ** The CPU inspector *)

Lemma get_in_nodup (d : dict) (k : string) (v : value) :
  NoDup (Dict.keys d) -> In (k, v) d -> Dict.get d k = Some v.
Proof.
  induction d as [|[k' v'] d IH]; intros Hnd Hin; [destruct Hin|].
  cbn [Dict.keys map fst] in Hnd. inversion Hnd as [|k0 ks Hnotin Hnd']; subst.
  cbn [Dict.get]. destruct Hin as [E|Hin].
  - injection E as -> ->. now rewrite String.eqb_refl.
  - destruct (String.eqb_spec k' k) as [->|Hne].
    + exfalso. apply Hnotin. apply (in_map fst) in Hin. exact Hin.
    + apply IH; assumption.
Qed.

Lemma get_app (d d' : dict) (k : string) :
  Dict.get (d ++ d')%list k =
    match Dict.get d k with
    | Some v => Some v
    | None => Dict.get d' k
    end.
Proof.
  induction d as [|[k' v'] d IH]; [reflexivity|].
  simpl. destruct (String.eqb k' k); [reflexivity | exact IH].
Qed.

Lemma core_key_inj (i j : nat) : core_key i = core_key j -> i = j.
Proof.
  unfold core_key. cbn [append]. intros E.
  injection E as E.
  assert (Es : span_digits (dec (Z.of_nat i) ++ " Usage")
               = span_digits (dec (Z.of_nat j) ++ " Usage")) by (rewrite E; reflexivity).
  rewrite !dec_digits in Es.
  change " Usage" with (String " " "Usage") in Es.
  rewrite !span_digits_uint in Es by reflexivity.
  injection Es as Es. rewrite <- !dec_digits in Es.
  apply dec_inj in Es; lia.
Qed.

Lemma gpu_key_inj (i j : nat) : gpu_key i = gpu_key j -> i = j.
Proof.
  unfold gpu_key. cbn [append]. intros E. injection E as E.
  apply dec_inj in E; lia.
Qed.

Lemma keys_NoDup_enumerate {A : Type} (key : nat -> string) (f : nat * A -> value)
    (l : list A) :
  (forall i j, key i = key j -> i = j) ->
  NoDup (Dict.keys (map (fun ix => (key (fst ix), f ix)) (enumerate l))).
Proof.
  intros Hinj. unfold Dict.keys. rewrite map_map. cbn [fst].
  rewrite <- (map_map fst key). unfold enumerate. rewrite enumerate_from_fst.
  apply Injective_map_NoDup; [exact Hinj | apply seq_NoDup].
Qed.

Lemma in_enumerate {A : Type} (l : list A) (i : nat) (x : A) :
  In (i, x) (enumerate l) <-> nth_error l i = Some x.
Proof.
  unfold enumerate.
  assert (G : forall start, In (i, x) (combine (seq start (List.length l)) l)
                            <-> (start <= i)%nat /\ nth_error l (i - start) = Some x).
  { induction l as [|y l IH]; intros start; cbn [List.length seq combine].
    - split; [intros [] | intros [_ H]; destruct (i - start)%nat; discriminate].
    - cbn [In]. rewrite IH. split.
      + intros [E|[Hle Hn]].
        * injection E as <- <-. split; [lia|]. now rewrite Nat.sub_diag.
        * split; [lia|]. replace (i - start)%nat with (S (i - S start)) by lia. exact Hn.
      + intros [Hle Hn]. destruct (Nat.eq_dec i start) as [->|Hne].
        * left. rewrite Nat.sub_diag in Hn. cbn in Hn. congruence.
        * right. split; [lia|].
          replace (i - start)%nat with (S (i - S start)) in Hn by lia. exact Hn. }
  rewrite G, Nat.sub_0_r. split; [intros [_ H]; exact H | intros H; split; [lia | exact H]].
Qed.

Lemma nth_error_combine_seq {A : Type} (l : list A) (start i : nat) :
  nth_error (combine (seq start (List.length l)) l) i
  = option_map (fun x => ((start + i)%nat, x)) (nth_error l i).
Proof.
  revert start i. induction l as [|y l IH]; intros start i.
  - destruct i; reflexivity.
  - destruct i as [|i]; cbn [List.length seq combine nth_error option_map].
    + now rewrite Nat.add_0_r.
    + rewrite IH. now rewrite Nat.add_succ_r.
Qed.

Lemma nth_error_enumerate {A : Type} (l : list A) (i : nat) :
  nth_error (enumerate l) i = option_map (fun x => (i, x)) (nth_error l i).
Proof. unfold enumerate. now rewrite nth_error_combine_seq. Qed.

Section Cpu.

Variable str_float : float -> string.

Lemma core_key_fresh (w : world) (i : nat) :
  Dict.mem (core_key i) (cpu_base str_float w) = false.
Proof. reflexivity. Qed.

(** What [get_cpu_info] returns, and the calls it makes. *)
Lemma get_cpu_info_run (w : world) :
  run w (get_cpu_info str_float) =
    ( [ Call psutil_cpu_freq; Call (psutil_cpu_count false); Call (psutil_cpu_count true);
        Call (psutil_cpu_percent None false);
        Call (psutil_cpu_percent (Some (PyInt 1)) true) ],
      Returns (cpu_base str_float w
               ++ core_entries str_float (w _ (psutil_cpu_percent (Some (PyInt 1)) true)))%list ).
Proof.
  cbn [get_cpu_info run bind trigger]. f_equal. f_equal.
  rewrite (fold_left_map_entries
             (fun ip => (core_key (fst ip), VStr (percent_text str_float (snd ip))))).
  apply fold_set_fresh.
  - apply (keys_NoDup_enumerate core_key
             (fun ip => VStr (percent_text str_float (snd ip)))).
    exact core_key_inj.
  - intros k Hin. unfold Dict.keys, core_entries in Hin. rewrite map_map in Hin.
    apply in_map_iff in Hin as [[i p] [<- _]]. apply core_key_fresh.
Qed.

(** C4, as amended.  [get_cpu_info] asks for CPU utilization twice: first
    for the aggregate with no interval (psutil then measures since its
    previous reading and does not block), then for the per-core list with
    [interval=1].  The ["CPU Usage"] entry is the answer to the first call,
    the ["Core i Usage"] entries are the answers to the second. *)
Theorem cpu_sampling_intervals (w : world) :
  sampling_intervals (trace w (get_cpu_info str_float)) = [None; Some (PyInt 1)] /\
  exists cpu_info : dict,
    result w (get_cpu_info str_float) = Returns cpu_info /\
    Dict.get cpu_info "CPU Usage"
    = Some (VStr (percent_text str_float (w _ (psutil_cpu_percent None false)))) /\
    forall (i : nat) (p : float),
      nth_error (w _ (psutil_cpu_percent (Some (PyInt 1)) true)) i = Some p ->
      Dict.get cpu_info (core_key i) = Some (VStr (percent_text str_float p)).
Proof.
  unfold trace, result. rewrite get_cpu_info_run. cbn [fst snd].
  split; [reflexivity|].
  eexists. split; [reflexivity|]. split; [reflexivity|].
  intros i p Hi.
  rewrite get_app.
  replace (Dict.get (cpu_base str_float w) (core_key i)) with (@None value) by reflexivity.
  apply get_in_nodup.
  - apply (keys_NoDup_enumerate core_key
             (fun ip => VStr (percent_text str_float (snd ip)))).
    exact core_key_inj.
  - unfold core_entries.
    apply (in_map (fun ip => (core_key (fst ip), VStr (percent_text str_float (snd ip))))
                  _ (i, p)).
    apply in_enumerate. exact Hi.
Qed.

(** C7.  Given that the provider reports [n] logical cores and one
    percentage in [[0, 100]] for each, the mapping [get_cpu_info] returns
    is its five fixed entries followed by exactly [n] per-core entries:
    the [i]-th, [i = 0 .. n-1], has the key ["Core i Usage"] and is the
    text of the [i]-th percentage of the provider, a number in
    [[0, 100]], followed by ["%"]; no fixed entry has such a key, and
    ["Total Cores"] is [n]. *)
Theorem cpu_per_core_entries (w : world) (n : Z) :
  w _ (psutil_cpu_count true) = Some n ->
  Z.of_nat (List.length (w _ (psutil_cpu_percent (Some (PyInt 1)) true))) = n ->
  Forall (fun p => in_percent p = true) (w _ (psutil_cpu_percent (Some (PyInt 1)) true)) ->
  exists per_core : dict,
    result w (get_cpu_info str_float) = Returns (cpu_base str_float w ++ per_core)%list /\
    Z.of_nat (List.length per_core) = n /\
    Dict.get (cpu_base str_float w ++ per_core)%list "Total Cores" = Some (VInt n) /\
    (forall i : nat, (i < List.length per_core)%nat ->
       exists p : float,
         nth_error (w _ (psutil_cpu_percent (Some (PyInt 1)) true)) i = Some p /\
         nth_error per_core i
         = Some ("Core " ++ dec (Z.of_nat i) ++ " Usage", VStr (str_float p ++ "%")) /\
         in_percent p = true) /\
    (forall k v, In (k, v) (cpu_base str_float w) ->
       forall i : nat, k <> "Core " ++ dec (Z.of_nat i) ++ " Usage").
Proof.
  intros Hn Hlen Hall.
  exists (core_entries str_float (w _ (psutil_cpu_percent (Some (PyInt 1)) true))).
  assert (Elen : List.length (core_entries str_float
                    (w _ (psutil_cpu_percent (Some (PyInt 1)) true)))
                 = List.length (w _ (psutil_cpu_percent (Some (PyInt 1)) true))).
  { unfold core_entries. now rewrite length_map, enumerate_length. }
  split; [unfold result; now rewrite get_cpu_info_run|].
  split; [now rewrite Elen|].
  split; [cbn; rewrite Hn; reflexivity|].
  split.
  - intros i Hi. rewrite Elen in Hi.
    destruct (nth_error (w _ (psutil_cpu_percent (Some (PyInt 1)) true)) i) as [p|] eqn:Ep.
    + exists p. split; [reflexivity|]. split.
      * unfold core_entries. rewrite nth_error_map, nth_error_enumerate, Ep. reflexivity.
      * rewrite Forall_forall in Hall. apply Hall. eapply nth_error_In. exact Ep.
    + apply nth_error_None in Ep. lia.
  - intros k v Hin i E. subst k.
    apply (in_map fst) in Hin.
    assert (Hm : Dict.mem (core_key i) (cpu_base str_float w) = true)
      by (apply mem_keys; exact Hin).
    rewrite core_key_fresh in Hm. discriminate.
Qed.

End Cpu.

(** A machine C7 speaks of: two logical cores, two percentages. *)
Lemma cpu_per_core_entries_witness :
  exists per_core : dict,
    result (world_of sample_machine) (get_cpu_info plain_float)
    = Returns (cpu_base plain_float (world_of sample_machine) ++ per_core)%list /\
    Z.of_nat (List.length per_core) = 2 /\
    Dict.get (cpu_base plain_float (world_of sample_machine) ++ per_core)%list "Total Cores"
    = Some (VInt 2) /\
    (forall i : nat, (i < List.length per_core)%nat ->
       exists p : float,
         nth_error (world_of sample_machine _ (psutil_cpu_percent (Some (PyInt 1)) true)) i
         = Some p /\
         nth_error per_core i
         = Some ("Core " ++ dec (Z.of_nat i) ++ " Usage", VStr (plain_float p ++ "%")) /\
         in_percent p = true) /\
    (forall k v, In (k, v) (cpu_base plain_float (world_of sample_machine)) ->
       forall i : nat, k <> "Core " ++ dec (Z.of_nat i) ++ " Usage").
Proof.
  apply (cpu_per_core_entries plain_float (world_of sample_machine) 2).
  - reflexivity.
  - reflexivity.
  - repeat constructor.
Defined.

(** C4 fails as stated.  On the sample machine the aggregate percentage is
    asked for with no interval; only the per-core call passes
    [interval=1]. *)
Lemma cpu_sampling_intervals_counterexample :
  sampling_intervals (trace (world_of sample_machine) (get_cpu_info plain_float))
  = [None; Some (PyInt 1)] /\
  ~ Forall (fun interval => interval = Some (PyInt 1))
      (sampling_intervals (trace (world_of sample_machine) (get_cpu_info plain_float))).
Proof.
  split; [reflexivity|].
  intros H. inversion H as [|x l Hx _]. discriminate Hx.
Qed.

(* ================================================================== *)
(** ** The memory inspector *)

(** Below the overflow threshold [get_size] returns. *)
Lemma get_size_returns (b : Z) :
  0 <= b < 2 ^ 1034 - 2 ^ 980 -> exists s, get_size (PyInt b) = Returns s.
Proof.
  intros [H0 Hlt]. rewrite get_size_int by lia.
  destruct (b <? 1024); [eexists; reflexivity|].
  destruct (Z.le_gt_cases (2 ^ 60) b) as [Hbig|Hsmall].
  - rewrite overflow_test by exact Hbig.
    replace (2 ^ 1034 - 2 ^ 980 <=? b) with false by (symmetry; apply Z.leb_gt; lia).
    eexists; reflexivity.
  - destruct (Z.leb_spec emax (Z.log2 (sig53 b) + (shift53 b - 10))) as [Hov|Hfin];
      [|eexists; reflexivity].
    exfalso.
    destruct (Z.eq_dec b 0) as [->|Hnz]; [vm_compute in Hov; apply Hov; reflexivity|].
    pose proof (shift53_below b 59 ltac:(lia) ltac:(lia) ltac:(cbn; lia)) as Hs.
    pose proof (shift53_nonneg b) as Hs0.
    assert (sig53 b <= 2 ^ 53).
    { destruct (Z.eq_dec (shift53 b) 0) as [E|E].
      - unfold sig53. rewrite E, rhe_one.
        assert (Z.log2 b < 53) by (unfold shift53 in E; lia).
        assert (b < 2 ^ 53) by (apply Z.log2_lt_pow2; lia). lia.
      - pose proof (sig53_range b ltac:(lia) ltac:(lia)). lia. }
    assert (Z.log2 (sig53 b) <= 53).
    { change 53 with (Z.log2 (2 ^ 53)). apply Z.log2_le_mono. assumption. }
    unfold emax in Hov. lia.
Qed.

Lemma byte_count_returns (n : Z) :
  byte_count n -> get_size (PyInt n) = Returns (match size_of n with VStr t => Some t | _ => None end)
                  /\ size_value n = Ret (size_of n).
Proof.
  intros [H0 Hlt].
  destruct (get_size_returns n) as [s Hs].
  { split; [lia|].
    assert (2 ^ 64 <= 2 ^ 1034 - 2 ^ 980) by (vm_compute; discriminate). lia. }
  unfold size_value, size_of. rewrite Hs. destruct s; split; reflexivity.
Qed.

Lemma size_value_count (n : Z) : byte_count n -> size_value n = Ret (size_of n).
Proof. intros H. apply byte_count_returns. exact H. Qed.

Section Memory.

Variable str_float : float -> string.

Lemma get_memory_info_result (w : world) :
  memory_counts w ->
  result w (get_memory_info str_float) =
    Returns
      [ ("Total Memory", size_of (vm_total (w _ psutil_virtual_memory)));
        ("Available Memory", size_of (vm_available (w _ psutil_virtual_memory)));
        ("Used Memory", size_of (vm_used (w _ psutil_virtual_memory)));
        ("Memory Usage", VStr (percent_text str_float (vm_percent (w _ psutil_virtual_memory))));
        ("Total Swap", size_of (sw_total (w _ psutil_swap_memory)));
        ("Free Swap", size_of (sw_free (w _ psutil_swap_memory)));
        ("Used Swap", size_of (sw_used (w _ psutil_swap_memory)));
        ("Swap Usage", VStr (percent_text str_float (sw_percent (w _ psutil_swap_memory)))) ].
Proof.
  intros (H1 & H2 & H3 & H4 & H5 & H6).
  unfold result. cbn [get_memory_info run bind trigger].
  rewrite (size_value_count _ H1). cbn [bind].
  rewrite (size_value_count _ H2). cbn [bind].
  rewrite (size_value_count _ H3). cbn [bind].
  rewrite (size_value_count _ H4). cbn [bind].
  rewrite (size_value_count _ H5). cbn [bind].
  rewrite (size_value_count _ H6). cbn [bind run snd].
  reflexivity.
Qed.

(** C8.  The ["Memory Usage"] and ["Swap Usage"] entries of
    [get_memory_info] are the texts of the provider's [percent] fields:
    two machines that report the same two percentages get the same two
    entries, whatever sizes they report. *)
Theorem memory_percentages_from_provider (w : world) :
  memory_counts w ->
  exists memory_info : dict,
    result w (get_memory_info str_float) = Returns memory_info /\
    Dict.get memory_info "Memory Usage"
    = Some (VStr (percent_text str_float (vm_percent (w _ psutil_virtual_memory)))) /\
    Dict.get memory_info "Swap Usage"
    = Some (VStr (percent_text str_float (sw_percent (w _ psutil_swap_memory)))) /\
    forall (w' : world) (memory_info' : dict),
      memory_counts w' ->
      vm_percent (w' _ psutil_virtual_memory) = vm_percent (w _ psutil_virtual_memory) ->
      sw_percent (w' _ psutil_swap_memory) = sw_percent (w _ psutil_swap_memory) ->
      result w' (get_memory_info str_float) = Returns memory_info' ->
      Dict.get memory_info' "Memory Usage" = Dict.get memory_info "Memory Usage" /\
      Dict.get memory_info' "Swap Usage" = Dict.get memory_info "Swap Usage".
Proof.
  intros Hw. eexists. split; [apply get_memory_info_result; exact Hw|].
  split; [reflexivity|]. split; [reflexivity|].
  intros w' d' Hw' Ev Es Hr.
  rewrite get_memory_info_result in Hr by exact Hw'.
  injection Hr as <-. cbn. rewrite Ev, Es. split; reflexivity.
Qed.

End Memory.

(** A machine C8 speaks of. *)
Lemma memory_percentages_from_provider_witness :
  memory_counts (world_of sample_machine) /\
  exists memory_info : dict,
    result (world_of sample_machine) (get_memory_info plain_float) = Returns memory_info /\
    Dict.get memory_info "Memory Usage" = Some (VStr "50.00%") /\
    Dict.get memory_info "Swap Usage" = Some (VStr "0.00%").
Proof.
  assert (H : memory_counts (world_of sample_machine))
    by (unfold memory_counts, byte_count; cbn; lia).
  split; [exact H|].
  destruct (memory_percentages_from_provider plain_float (world_of sample_machine) H)
    as (d & Hr & Hm & Hs & _).
  exists d. split; [exact Hr|]. split; [exact Hm | exact Hs].
Defined.

(* ================================================================== *)
(** ** The disk inspector *)

Section Disk.

Variable str_float : float -> string.

(** One turn of the loop: the partition's usage is read, and either its
    entry is stored or the partition is skipped. *)
Lemma disk_turn (w : world) (p : sdiskpart) (d : dict) :
  (forall u, w _ (psutil_disk_usage (mountpoint p)) = Returns u -> usage_counts u) ->
  run w (try_except (disk_entry str_float p d) (fun _ => Ret d))
  = ([Call (psutil_disk_usage (mountpoint p))], Returns (disk_step str_float w d p)).
Proof.
  intros Hu. unfold disk_step.
  cbn [disk_entry attempt bind try_except run].
  destruct (w _ (psutil_disk_usage (mountpoint p))) as [u|e]; [|reflexivity].
  destruct (Hu u eq_refl) as (H1 & H2 & H3).
  cbn [bind].
  rewrite (size_value_count _ H1). cbn [bind].
  rewrite (size_value_count _ H2). cbn [bind].
  rewrite (size_value_count _ H3). cbn [bind try_except run].
  reflexivity.
Qed.

Lemma disk_loop (w : world) (ps : list sdiskpart) (d : dict) :
  (forall p u, In p ps ->
     w _ (psutil_disk_usage (mountpoint p)) = Returns u -> usage_counts u) ->
  run w (for_each ps
           (fun partition disk_info =>
              try_except (disk_entry str_float partition disk_info)
                         (fun _ => Ret disk_info)) d)
  = (map (fun p => Call (psutil_disk_usage (mountpoint p))) ps,
     Returns (fold_left (disk_step str_float w) ps d)).
Proof.
  revert d. induction ps as [|p ps IH]; intros d Hu; [reflexivity|].
  cbn [for_each]. rewrite run_bind.
  rewrite disk_turn by (intros u; apply Hu; left; reflexivity).
  rewrite IH by (intros q u Hq; apply Hu; right; exact Hq).
  reflexivity.
Qed.

Lemma get_disk_info_run (w : world) :
  disk_counts w ->
  run w (get_disk_info str_float)
  = (Call psutil_disk_partitions
       :: map (fun p => Call (psutil_disk_usage (mountpoint p))) (w _ psutil_disk_partitions),
     Returns (fold_left (disk_step str_float w) (w _ psutil_disk_partitions) [])).
Proof.
  intros Hw. unfold get_disk_info. cbn [bind trigger run].
  assert (E : forall ps, (fun x : list sdiskpart =>
             bind (Ret x)
               (fun partitions : list sdiskpart =>
                for_each partitions
                  (fun (partition : sdiskpart) (disk_info : dict) =>
                   try_except (disk_entry str_float partition disk_info)
                     (fun _ : exn => Ret disk_info)) [])) ps
          = for_each ps
              (fun (partition : sdiskpart) (disk_info : dict) =>
                 try_except (disk_entry str_float partition disk_info)
                   (fun _ : exn => Ret disk_info)) []) by reflexivity.
  cbn beta in E |- *. rewrite disk_loop by exact Hw. reflexivity.
Qed.

(** The keys after the loop: those before it and the devices read. *)
Lemma disk_fold_keys (w : world) (ps : list sdiskpart) (d : dict) (k : string) :
  In k (Dict.keys (fold_left (disk_step str_float w) ps d)) <->
  In k (Dict.keys d) \/ In k (map device_key (filter (readable w) ps)).
Proof.
  revert d. induction ps as [|p ps IH]; intros d.
  - cbn. tauto.
  - cbn [fold_left filter]. rewrite IH.
    assert (Er : readable w p = is_returns (w _ (psutil_disk_usage (mountpoint p))))
      by reflexivity.
    rewrite Er. unfold disk_step.
    destruct (w _ (psutil_disk_usage (mountpoint p))) as [u|e]; cbn [is_returns].
    + rewrite keys_set. cbn [map In].
      destruct (Dict.mem (device_key p) d) eqn:Em.
      * apply mem_keys in Em. split; [intros [H|H]; tauto|].
        intros [H|[H|H]]; [tauto | subst; tauto | tauto].
      * rewrite in_app_iff. cbn [In]. tauto.
    + tauto.
Qed.

Lemma disk_fold_NoDup (w : world) (ps : list sdiskpart) (d : dict) :
  NoDup (Dict.keys d) -> NoDup (Dict.keys (fold_left (disk_step str_float w) ps d)).
Proof.
  revert d. induction ps as [|p ps IH]; intros d Hd; [exact Hd|].
  cbn [fold_left]. apply IH. unfold disk_step.
  destruct (w _ (psutil_disk_usage (mountpoint p))) as [u|e]; [|exact Hd].
  rewrite keys_set. destruct (Dict.mem (device_key p) d) eqn:Em; [exact Hd|].
  apply mem_false_keys in Em.
  apply NoDup_app; [exact Hd | repeat constructor; intros [] | ].
  intros x Hx [E|[]]. subst. exact (Em Hx).
Qed.

Lemma disk_fold_entries (w : world) (ps : list sdiskpart) (d : dict) (k : string) (v : value) :
  In (k, v) (fold_left (disk_step str_float w) ps d) ->
  In (k, v) d \/
  exists p u, In p ps /\ w _ (psutil_disk_usage (mountpoint p)) = Returns u /\
    k = device_key p /\
    v = disk_value str_float p u
          (size_of (du_total u)) (size_of (du_used u)) (size_of (du_free u)).
Proof.
  revert d. induction ps as [|p ps IH]; intros d Hin; [left; exact Hin|].
  cbn [fold_left] in Hin. apply IH in Hin. destruct Hin as [Hin|Hin].
  - unfold disk_step in Hin.
    destruct (w _ (psutil_disk_usage (mountpoint p))) as [u|e] eqn:Eu; [|left; exact Hin].
    apply in_set in Hin. destruct Hin as [E|Hin]; [|left; exact Hin].
    injection E as -> ->. right. exists p, u.
    split; [left; reflexivity|]. repeat split. exact Eu.
  - right. destruct Hin as (q & u & Hq & Hr). exists q, u. split; [right; exact Hq | exact Hr].
Qed.



Lemma stdout_disk_usage_calls (ps : list sdiskpart) :
  stdout (map (fun p => Call (psutil_disk_usage (mountpoint p))) ps) = [].
Proof. induction ps as [|p ps IH]; [reflexivity | exact IH]. Qed.

End Disk.


(* ================================================================== *)
(** ** A fraction times [100] is a percentage *)

Lemma fle_finite (m1 e1 m2 e2 : Z) :
  fle (Finite m1 e1) (Finite m2 e2)
  = (m1 * 2 ^ (e1 - Z.min e1 e2) <=? m2 * 2 ^ (e2 - Z.min e1 e2)).
Proof. reflexivity. Qed.

Lemma rhe_zero d : 0 < d -> round_half_even 0 d = 0.
Proof. intros Hd. rewrite <- (Z.mul_0_l d) at 1. apply rhe_multiple. exact Hd. Qed.

Lemma round_binary64_zero e : round_binary64 0 e = Finite 0 0.
Proof.
  unfold round_binary64. cbn [Z.abs].
  rewrite rhe_zero by (apply pow2_pos; lia). reflexivity.
Qed.

(** Rounding a positive value that is at most [100] gives a float that is
    at most [100]: [100] is itself a float. *)
Lemma round_binary64_le_100 (a e : Z) :
  0 < a -> e < 0 -> a <= 100 * 2 ^ (- e) ->
  in_percent (round_binary64 a e) = true.
Proof.
  intros Ha He Hle. unfold round_binary64.
  rewrite Z.abs_eq by lia.
  set (s := Z.max 0 (Z.max (Z.log2 a - (prec - 1)) (emin - e))).
  assert (Hs0 : 0 <= s) by (unfold s; lia).
  assert (Hpe : 0 < 2 ^ (- e)) by (apply pow2_pos; lia).
  assert (Hlog : Z.log2 a < 7 - e).
  { apply Z.log2_lt_pow2; [lia|].
    replace (7 - e) with (7 + - e) by lia. rewrite pow2_split by lia.
    change (2 ^ 7) with 128. lia. }
  assert (Hse : s <= - e) by (unfold s, prec, emin; lia).
  assert (Hps : 0 < 2 ^ s) by (apply pow2_pos; lia).
  assert (Hsplit : 2 ^ (- e) = 2 ^ (- e - s) * 2 ^ s).
  { rewrite <- pow2_split by lia. f_equal. lia. }
  assert (Hq : round_half_even a (2 ^ s) <= 100 * 2 ^ (- e - s)).
  { apply rhe_le_multiple; [exact Hps|]. rewrite Hsplit in Hle. lia. }
  assert (Hq0 : 0 <= round_half_even a (2 ^ s)).
  { pose proof (rhe_bounds a (2 ^ s) Hps).
    assert (0 <= a / 2 ^ s) by (apply Z.div_pos; lia). lia. }
  set (q := round_half_even a (2 ^ s)) in *.
  destruct (Z.eqb_spec q 0) as [E|E]; [reflexivity|].
  assert (Hlq : Z.log2 q <= 6 + (- e - s)).
  { replace (6 + (- e - s)) with (Z.log2 (100 * 2 ^ (- e - s))).
    - apply Z.log2_le_mono. exact Hq.
    - rewrite Z.log2_mul_pow2 by lia. change (Z.log2 100) with 6. lia. }
  replace (emax <=? Z.log2 q + (e + s)) with false
    by (symmetry; apply Z.leb_gt; unfold emax; lia).
  rewrite Z.sgn_pos, Z.mul_1_l by lia.
  unfold in_percent, of_Z. rewrite !fle_finite.
  rewrite Z.min_r by lia. rewrite Z.min_l by lia.
  replace (e + s - (e + s)) with 0 by lia.
  rewrite Z.pow_0_r, Z.mul_1_r, Z.mul_0_l.
  replace (0 - (e + s)) with (- e - s) by lia.
  apply andb_true_intro. split; apply Z.leb_le; lia.
Qed.

Lemma fmul_percent (x : float) :
  in_unit x = true -> in_percent (fmul x (of_Z 100)) = true.
Proof.
  unfold in_unit, of_Z. intros H. apply andb_prop in H as [H0 H1].
  destruct x as [m e|[|]|]; try discriminate.
  rewrite fle_finite in H0, H1. apply Z.leb_le in H0, H1.
  cbn [fmul]. rewrite Z.add_0_r.
  assert (Hm : 0 <= m).
  { assert (0 < 2 ^ (e - Z.min 0 e)) by (apply pow2_pos; lia). nia. }
  destruct (Z.eq_dec m 0) as [->|Hnz]; [rewrite round_binary64_zero; reflexivity|].
  destruct (Z.le_gt_cases 0 e) as [Hpos|Hneg].
  - rewrite Z.min_r in H1 by lia.
    rewrite Z.sub_0_r, Z.pow_0_r, Z.mul_1_l in H1.
    assert (1 <= 2 ^ e) by (pose proof (pow2_pos e Hpos); lia).
    assert (Em : m = 1) by nia. subst m.
    assert (Ee : e = 0).
    { destruct (Z.eq_dec e 0) as [E0|E0]; [exact E0|].
      assert (2 ^ 1 <= 2 ^ e) by (apply Z.pow_le_mono_r; lia).
      change (2 ^ 1) with 2 in *. lia. }
    subst e. reflexivity.
  - rewrite Z.min_l in H1 by lia.
    replace (e - e) with 0 in H1 by lia.
    rewrite Z.pow_0_r, Z.mul_1_r, Z.mul_1_l in H1.
    replace (0 - e) with (- e) in H1 by lia.
    apply round_binary64_le_100; lia.
Qed.

(* ================================================================== *)
(** ** The GPU inspector *)

Section Gpu.

Variable str_float : float -> string.

Lemma gpu_fold_entries (gpus : list GPU) :
  fold_left
    (fun gpu_info ig => Dict.set gpu_info (gpu_key (fst ig)) (gpu_entry str_float (snd ig)))
    (enumerate gpus) []
  = gpu_entries str_float gpus.
Proof.
  rewrite (fold_left_map_entries
             (fun ig => (gpu_key (fst ig), gpu_entry str_float (snd ig)))).
  rewrite fold_set_fresh; [reflexivity | | reflexivity].
  apply (keys_NoDup_enumerate gpu_key (fun ig => gpu_entry str_float (snd ig))).
  exact gpu_key_inj.
Qed.

(** The result of [try_get_gpu_info], by what the two guarded calls
    answer. *)
Lemma try_get_gpu_info_result (w : world) :
  result w (try_get_gpu_info str_float) =
    Returns
      match w _ import_GPUtil with
      | Raises e => gpu_handler e
      | Returns _ =>
          match w _ GPUtil_getGPUs with
          | Raises e => gpu_handler e
          | Returns gpus => gpu_entries str_float gpus
          end
      end.
Proof.
  unfold try_get_gpu_info. rewrite result_try_except.
  unfold result, gpu_handler. cbn [attempt bind run].
  destruct (w _ import_GPUtil) as [[]|e]; cbn [bind run snd].
  - destruct (w _ GPUtil_getGPUs) as [gpus|e]; cbn [bind run snd].
    + rewrite gpu_fold_entries. reflexivity.
    + destruct (exn_class e); reflexivity.
  - destruct (exn_class e); reflexivity.
Qed.

Lemma gpu_entries_length (gpus : list GPU) :
  List.length (gpu_entries str_float gpus) = List.length gpus.
Proof. unfold gpu_entries. now rewrite length_map, enumerate_length. Qed.

Lemma gpu_entries_nth (gpus : list GPU) (i : nat) :
  nth_error (gpu_entries str_float gpus) i
  = option_map (fun g => (gpu_key i, gpu_entry str_float g)) (nth_error gpus i).
Proof.
  unfold gpu_entries. rewrite nth_error_map, nth_error_enumerate.
  destruct (nth_error gpus i); reflexivity.
Qed.

Lemma gpu_entries_keys (gpus : list GPU) :
  Dict.keys (gpu_entries str_float gpus) = map gpu_key (seq 0 (List.length gpus)).
Proof.
  unfold Dict.keys, gpu_entries. rewrite map_map. cbn [fst].
  rewrite <- (map_map fst gpu_key). unfold enumerate. now rewrite enumerate_from_fst.
Qed.

Lemma gpu_entries_no_sentinel_key (gpus : list GPU) :
  Dict.mem "Status" (gpu_entries str_float gpus) = false /\
  Dict.mem "Error" (gpu_entries str_float gpus) = false.
Proof.
  split; apply mem_false_keys; rewrite gpu_entries_keys; intros Hin;
    apply in_map_iff in Hin as [i [E _]]; discriminate E.
Qed.

Lemma gpu_entries_not_sentinel (gpus : list GPU) :
  is_sentinel (gpu_entries str_float gpus) = false.
Proof.
  unfold is_sentinel. destruct (gpu_entries_no_sentinel_key gpus) as [-> ->].
  apply andb_false_r.
Qed.

(** [try_get_gpu_info] always returns, one of three mappings. *)
Lemma gpu_result_cases (w : world) :
  exists gpu_info : dict,
    result w (try_get_gpu_info str_float) = Returns gpu_info /\
    (gpu_info = gpu_unavailable \/ (exists e, gpu_info = gpu_failed e) \/
     exists gpus, gpu_info = gpu_entries str_float gpus).
Proof.
  eexists. split; [apply try_get_gpu_info_result|].
  unfold gpu_handler.
  destruct (w _ import_GPUtil) as [[]|e].
  - destruct (w _ GPUtil_getGPUs) as [gpus|e].
    + right. right. exists gpus. reflexivity.
    + destruct (exn_class e); [left; reflexivity | right; left; exists e; reflexivity ..].
  - destruct (exn_class e); [left; reflexivity | right; left; exists e; reflexivity ..].
Qed.

(** C6, as amended.  [try_get_gpu_info] always returns, in one of three
    ways that exclude one another, and which one is decided by what the
    single [try] block raises.  When the import or the enumeration raises
    [ImportError], the result is the one entry ["Status"] telling that GPU
    information is unavailable.  When either raises any other exception
    [e], the result is the one entry ["Error"] whose text ends with
    [str(e)].  When both succeed with [G] GPUs, the result has exactly [G]
    entries, the [i]-th under the key ["GPU i"], its ["Load"] the text of
    [load * 100] followed by ["%"], a percentage in [[0, 100]] whenever
    [load] is a fraction in [[0, 1]]; such a result is neither of the two
    one-entry results, and these differ from each other. *)
Theorem gpu_three_outcomes (w : world) :
  (exists gpu_info : dict,
     result w (try_get_gpu_info str_float) = Returns gpu_info /\
     (gpu_info
      = [("Status",
          VStr "GPU information unavailable - GPUtil module not installed or supported")]
      \/ (exists e,
            gpu_info = [("Error", VStr ("Failed to get GPU information: " ++ exn_str e))])
      \/ (exists gpus,
            w _ import_GPUtil = Returns tt /\ w _ GPUtil_getGPUs = Returns gpus /\
            List.length gpu_info = List.length gpus))) /\
  (forall e,
     w _ import_GPUtil = Raises e \/
     (w _ import_GPUtil = Returns tt /\ w _ GPUtil_getGPUs = Raises e) ->
     exn_class e = ImportError ->
     result w (try_get_gpu_info str_float)
     = Returns
         [("Status",
           VStr "GPU information unavailable - GPUtil module not installed or supported")]) /\
  (forall e,
     w _ import_GPUtil = Raises e \/
     (w _ import_GPUtil = Returns tt /\ w _ GPUtil_getGPUs = Raises e) ->
     exn_class e <> ImportError ->
     result w (try_get_gpu_info str_float)
     = Returns [("Error", VStr ("Failed to get GPU information: " ++ exn_str e))]) /\
  (forall gpus,
     w _ import_GPUtil = Returns tt -> w _ GPUtil_getGPUs = Returns gpus ->
     exists gpu_info : dict,
       result w (try_get_gpu_info str_float) = Returns gpu_info /\
       List.length gpu_info = List.length gpus /\
       (forall i g, nth_error gpus i = Some g ->
          exists info : dict,
            nth_error gpu_info i = Some ("GPU " ++ dec (Z.of_nat i), VDict info) /\
            Dict.get info "Load"
            = Some (VStr (str_float (fmul (gpu_load g) (of_Z 100)) ++ "%")) /\
            (in_unit (gpu_load g) = true ->
             in_percent (fmul (gpu_load g) (of_Z 100)) = true)) /\
       gpu_info
       <> [("Status",
            VStr "GPU information unavailable - GPUtil module not installed or supported")] /\
       (forall e,
          gpu_info <> [("Error", VStr ("Failed to get GPU information: " ++ exn_str e))])) /\
  (forall e,
     [("Status", VStr "GPU information unavailable - GPUtil module not installed or supported")]
     <> [("Error", VStr ("Failed to get GPU information: " ++ exn_str e))]).
Proof.
  assert (Hraise : forall e,
            w _ import_GPUtil = Raises e \/
            (w _ import_GPUtil = Returns tt /\ w _ GPUtil_getGPUs = Raises e) ->
            result w (try_get_gpu_info str_float) = Returns (gpu_handler e)).
  { intros e H. rewrite try_get_gpu_info_result.
    destruct H as [->|[-> ->]]; reflexivity. }
  split.
  { eexists. split; [apply try_get_gpu_info_result|].
    unfold gpu_handler.
    destruct (w _ import_GPUtil) as [[]|e].
    - destruct (w _ GPUtil_getGPUs) as [gpus|e].
      + right. right. exists gpus.
        split; [reflexivity|]. split; [reflexivity | apply gpu_entries_length].
      + destruct (exn_class e); [left; reflexivity | right; left; exists e; reflexivity ..].
    - destruct (exn_class e); [left; reflexivity | right; left; exists e; reflexivity ..]. }
  split.
  { intros e H Hc. rewrite (Hraise e H). unfold gpu_handler. now rewrite Hc. }
  split.
  { intros e H Hc. rewrite (Hraise e H). unfold gpu_handler.
    destruct (exn_class e); [contradiction | reflexivity ..]. }
  split.
  { intros gpus Hi Hg. exists (gpu_entries str_float gpus).
    split; [now rewrite try_get_gpu_info_result, Hi, Hg|].
    split; [apply gpu_entries_length|].
    split.
    { intros i g Hn. eexists.
      split; [rewrite gpu_entries_nth, Hn; reflexivity|].
      split; [reflexivity | apply fmul_percent]. }
    split; [|intros e]; intros E;
      pose proof (gpu_entries_not_sentinel gpus) as Hs; rewrite E in Hs; discriminate Hs. }
  intros e. discriminate.
Qed.

(** C10.  Every key of a mapping built from enumerated GPUs is ["GPU "]
    followed by the decimal digits of its position, so neither ["Status"]
    nor ["Error"] is among them and the renderer's test fails on it; on the
    two one-entry results the test succeeds and the key the renderer picks
    is the entry's own.  Hence, on every result [try_get_gpu_info] can
    return, the test holds exactly when the [try] block raised. *)
Theorem gpu_sentinel_classifies (w : world) :
  (forall gpus,
     Dict.keys (gpu_entries str_float gpus)
     = map (fun i : nat => "GPU " ++ dec (Z.of_nat i)) (seq 0 (List.length gpus)) /\
     Dict.mem "Status" (gpu_entries str_float gpus) = false /\
     Dict.mem "Error" (gpu_entries str_float gpus) = false /\
     is_sentinel (gpu_entries str_float gpus) = false) /\
  (is_sentinel gpu_unavailable = true /\ Dict.mem "Status" gpu_unavailable = true /\
   Dict.get gpu_unavailable "Status"
   = Some (VStr "GPU information unavailable - GPUtil module not installed or supported")) /\
  (forall e, is_sentinel (gpu_failed e) = true /\
             Dict.mem "Status" (gpu_failed e) = false /\
             Dict.mem "Error" (gpu_failed e) = true /\
             Dict.get (gpu_failed e) "Error"
             = Some (VStr ("Failed to get GPU information: " ++ exn_str e))) /\
  exists gpu_info : dict,
    result w (try_get_gpu_info str_float) = Returns gpu_info /\
    ((is_sentinel gpu_info = true /\
      exists e,
        (w _ import_GPUtil = Raises e \/
         (w _ import_GPUtil = Returns tt /\ w _ GPUtil_getGPUs = Raises e)) /\
        (gpu_info = gpu_unavailable \/ gpu_info = gpu_failed e)) \/
     (is_sentinel gpu_info = false /\
      exists gpus,
        w _ import_GPUtil = Returns tt /\ w _ GPUtil_getGPUs = Returns gpus /\
        gpu_info = gpu_entries str_float gpus)).
Proof.
  split.
  { intros gpus. split; [apply gpu_entries_keys|].
    destruct (gpu_entries_no_sentinel_key gpus) as [Hs He].
    split; [exact Hs|]. split; [exact He | apply gpu_entries_not_sentinel]. }
  split; [repeat split|].
  split; [intros e; repeat split|].
  eexists. split; [apply try_get_gpu_info_result|].
  unfold gpu_handler.
  destruct (w _ import_GPUtil) as [[]|e].
  - destruct (w _ GPUtil_getGPUs) as [gpus|e].
    + right. split; [apply gpu_entries_not_sentinel|].
      exists gpus. repeat split.
    + left. destruct (exn_class e); (split; [reflexivity|]); exists e;
        (split; [right; split; reflexivity|]);
        [left; reflexivity | right; reflexivity ..].
  - left. destruct (exn_class e); (split; [reflexivity|]); exists e;
      (split; [left; reflexivity|]);
      [left; reflexivity | right; reflexivity ..].
Qed.

End Gpu.

(** C6 fails as stated.  On a machine whose GPU module imports and whose
    enumeration raises an [ImportError], the result is the ["Status"]
    entry, not an entry carrying the failure; on a machine whose import
    raises something that is no [ImportError], the result is the
    ["Error"] entry, not the entry signaling unavailability. *)
Lemma gpu_three_outcomes_counterexample :
  (world_of (gpu_module_machine (Returns tt) (Raises late_import_error)) _ import_GPUtil
   = Returns tt /\
   world_of (gpu_module_machine (Returns tt) (Raises late_import_error)) _ GPUtil_getGPUs
   = Raises late_import_error /\
   result (world_of (gpu_module_machine (Returns tt) (Raises late_import_error)))
          (try_get_gpu_info plain_float)
   = Returns
       [("Status",
         VStr "GPU information unavailable - GPUtil module not installed or supported")] /\
   result (world_of (gpu_module_machine (Returns tt) (Raises late_import_error)))
          (try_get_gpu_info plain_float)
   <> Returns
        [("Error",
          VStr ("Failed to get GPU information: " ++ exn_str late_import_error))]) /\
  (world_of (gpu_module_machine (Raises broken_module_error) (Returns [])) _ import_GPUtil
   = Raises broken_module_error /\
   result (world_of (gpu_module_machine (Raises broken_module_error) (Returns [])))
          (try_get_gpu_info plain_float)
   = Returns [("Error", VStr "Failed to get GPU information: invalid syntax")] /\
   result (world_of (gpu_module_machine (Raises broken_module_error) (Returns [])))
          (try_get_gpu_info plain_float)
   <> Returns
        [("Status",
          VStr "GPU information unavailable - GPUtil module not installed or supported")]).
Proof.
  repeat split; try reflexivity; vm_compute; discriminate.
Qed.

(* ================================================================== *)
(** ** The renderer *)

Lemma stdout_bind {A B : Type} (w : world) (p : prog A) (f : A -> prog B) :
  stdout (trace w (bind p f)) =
    match result w p with
    | Returns a => (stdout (trace w p) ++ stdout (trace w (f a)))%list
    | Raises e => stdout (trace w p)
    end.
Proof.
  rewrite trace_bind. destruct (result w p); [apply stdout_app | reflexivity].
Qed.

Lemma set_all_dicts (d : dict) (k : string) (v : value) :
  Forall (fun kv => is_dict (snd kv) = true) d -> is_dict v = true ->
  Forall (fun kv => is_dict (snd kv) = true) (Dict.set d k v).
Proof.
  intros Hd Hv. induction d as [|[k' v'] d IH]; cbn [Dict.set].
  - constructor; [exact Hv | constructor].
  - inversion Hd as [|x l Hx Hl]; subst.
    destruct (String.eqb k' k); constructor; auto.
Qed.

Section Renderer.

Variable tabulate : list (list value) -> list string -> string -> string.
Variable str_float : float -> string.

Lemma get_system_info_run (w : world) :
  run w get_system_info =
    ( [ Call platform_system; Call platform_release; Call platform_version;
        Call platform_machine; Call platform_processor; Call platform_node ],
      Returns (system_base w) ).
Proof. reflexivity. Qed.

Lemma get_memory_info_quiet (w : world) :
  stdout (trace w (get_memory_info str_float)) = [].
Proof.
  unfold trace. cbn [get_memory_info run bind trigger]. unfold size_value.
  repeat match goal with
         | |- context [lift (get_size ?x)] =>
             destruct (get_size x); cbn [lift bind run]
         end; reflexivity.
Qed.

(** One turn of the disk loop, whatever the sizes: it reads the usage,
    never raises, and stores a nested mapping or nothing. *)
Lemma disk_turn_quiet (w : world) (p : sdiskpart) (d : dict) :
  Forall (fun kv => is_dict (snd kv) = true) d ->
  exists d' : dict,
    run w (try_except (disk_entry str_float p d) (fun _ => Ret d))
    = ([Call (psutil_disk_usage (mountpoint p))], Returns d') /\
    Forall (fun kv => is_dict (snd kv) = true) d'.
Proof.
  intros Hd.
  cbn [disk_entry attempt bind try_except run].
  destruct (w _ (psutil_disk_usage (mountpoint p))) as [u|e];
    [|exists d; split; [reflexivity | exact Hd]].
  cbn [bind]. unfold size_value.
  destruct (get_size (PyInt (du_total u)));
    [|exists d; split; [reflexivity | exact Hd]].
  cbn [lift bind].
  destruct (get_size (PyInt (du_used u)));
    [|exists d; split; [reflexivity | exact Hd]].
  cbn [lift bind].
  destruct (get_size (PyInt (du_free u)));
    [|exists d; split; [reflexivity | exact Hd]].
  cbn [lift bind try_except run].
  eexists. split; [reflexivity|]. apply set_all_dicts; [exact Hd | reflexivity].
Qed.

Lemma disk_loop_quiet (w : world) (ps : list sdiskpart) (d : dict) :
  Forall (fun kv => is_dict (snd kv) = true) d ->
  exists d' : dict,
    run w (for_each ps
             (fun partition disk_info =>
                try_except (disk_entry str_float partition disk_info)
                           (fun _ => Ret disk_info)) d)
    = (map (fun p => Call (psutil_disk_usage (mountpoint p))) ps, Returns d') /\
    Forall (fun kv => is_dict (snd kv) = true) d'.
Proof.
  revert d. induction ps as [|p ps IH]; intros d Hd.
  - exists d. split; [reflexivity | exact Hd].
  - cbn [for_each]. rewrite run_bind.
    destruct (disk_turn_quiet w p d Hd) as (d1 & E1 & H1). rewrite E1.
    destruct (IH d1 H1) as (d2 & E2 & H2). rewrite E2.
    exists d2. split; [reflexivity | exact H2].
Qed.

(** [get_disk_info] never raises and prints nothing, and every value of
    its result is a nested mapping. *)
Lemma get_disk_info_quiet (w : world) :
  exists disk_info : dict,
    result w (get_disk_info str_float) = Returns disk_info /\
    stdout (trace w (get_disk_info str_float)) = [] /\
    Forall (fun kv => is_dict (snd kv) = true) disk_info.
Proof.
  destruct (disk_loop_quiet w (w _ psutil_disk_partitions) [] ltac:(constructor))
    as (d & E & H).
  exists d. unfold result, trace, get_disk_info. cbn [bind trigger run].
  change (run w (for_each (w _ psutil_disk_partitions)
                   (fun partition disk_info =>
                      try_except (disk_entry str_float partition disk_info)
                                 (fun _ => Ret disk_info)) []))
    with (run w (for_each (w _ psutil_disk_partitions)
                   (fun partition disk_info =>
                      try_except (disk_entry str_float partition disk_info)
                                 (fun _ => Ret disk_info)) [])) in E.
  rewrite E. cbn [fst snd].
  split; [reflexivity|]. split; [apply stdout_disk_usage_calls | exact H].
Qed.

Lemma try_get_gpu_info_quiet (w : world) :
  stdout (trace w (try_get_gpu_info str_float)) = [].
Proof.
  unfold try_get_gpu_info, trace. cbn [attempt bind try_except run].
  destruct (w _ import_GPUtil) as [[]|e]; cbn [bind try_except run].
  - destruct (w _ GPUtil_getGPUs) as [gpus|e]; cbn [bind try_except run fst stdout].
    + reflexivity.
    + destruct (exn_class e); reflexivity.
  - destruct (exn_class e); reflexivity.
Qed.

Lemma print_section_run (w : world) (title : string) (info : dict) :
  run w (print_section tabulate title info)
  = (map (fun v => Call (print v)) (section_lines tabulate title info), Returns tt).
Proof.
  cbn [print_section trigger bind run section_lines map].
  now destruct (w unit (print (VStr (table tabulate info)))).
Qed.

(** Groupings that are all nested mappings print as one heading and one
    table each. *)
Lemma print_groups_loop (w : world) (groups : dict) (s : unit) :
  Forall (fun kv => is_dict (snd kv) = true) groups ->
  run w (for_each groups
           (fun group _ =>
              bind (trigger (print (VStr (nl ++ fst group ++ ":"))))
                (fun _ =>
                   match snd group with
                   | VDict info => trigger (print (VStr (table tabulate info)))
                   | _ => Throw (Exn AttributeError "object has no attribute 'items'")
                   end)) s)
  = (map (fun v => Call (print v)) (group_lines tabulate groups), Returns tt).
Proof.
  revert s. induction groups as [|[k v] groups IH]; intros s H.
  - destruct s. reflexivity.
  - inversion H as [|x l Hv Hl]; subst. cbn [snd] in Hv.
    destruct v as [| | |info]; try discriminate.
    cbn [for_each]. rewrite run_bind. cbn [fst snd bind trigger run].
    rewrite (IH _ Hl). reflexivity.
Qed.

Lemma print_groups_run (w : world) (groups : dict) :
  Forall (fun kv => is_dict (snd kv) = true) groups ->
  run w (print_groups tabulate groups)
  = (map (fun v => Call (print v)) (group_lines tabulate groups), Returns tt).
Proof. apply print_groups_loop. Qed.

Lemma stdout_prints (lines : list value) :
  stdout (map (fun v => Call (print v)) lines) = lines.
Proof. induction lines as [|v lines IH]; [reflexivity | cbn; now rewrite IH]. Qed.

Lemma bind_returns {A B : Type} (w : world) (p : prog A) (f : A -> prog B) (a : A) :
  result w p = Returns a ->
  result w (bind p f) = result w (f a) /\
  stdout (trace w (bind p f)) = (stdout (trace w p) ++ stdout (trace w (f a)))%list.
Proof.
  intros H. rewrite result_bind, stdout_bind, H. split; reflexivity.
Qed.

Lemma print_returns (w : world) (v : value) :
  result w (trigger (print v)) = Returns tt /\ stdout (trace w (trigger (print v))) = [v].
Proof.
  unfold result, trace. cbn [trigger run fst snd stdout].
  now destruct (w unit (print v)).
Qed.



End Renderer.



(* ================================================================== *)
(** ** More on the unit formatter *)

Lemma hundredths_whole (n : Z) : 0 <= n ->
  hundredths (100 * n) = dec n ++ ".00".
Proof.
  intros Hn. unfold hundredths.
  replace (100 * n / 100) with n by (rewrite Z.mul_comm, Z.div_mul; lia).
  replace (100 * n / 10) with (10 * n)
    by (replace (100 * n) with (10 * n * 10) by ring; rewrite Z.div_mul; lia).
  replace (10 * n mod 10) with 0 by (rewrite Z.mul_comm, Z.mod_mul; lia).
  replace (100 * n mod 10) with 0
    by (replace (100 * n) with (10 * n * 10) by ring; rewrite Z.mod_mul; lia).
  reflexivity.
Qed.

(** X1.  A negative byte count is below [1024] at the first test, so it is
    never scaled: down to [-2^53] the text is the count itself with two
    zero decimals and the bare suffix ["B"]. *)
Theorem get_size_negative (b : Z) :
  - 2 ^ 53 < b < 0 ->
  get_size (PyInt b) = Returns (Some ("-" ++ dec (- b) ++ ".00B")).
Proof.
  intros [Hlo Hhi]. unfold get_size, units. rewrite get_size_loop_cons.
  cbn [lt_1024].
  replace (b <? 1024) with true by (symmetry; apply Z.ltb_lt; lia).
  cbn [format_2f]. unfold float_of_int, round_binary64.
  rewrite Z.abs_neq by lia.
  assert (Hl : Z.log2 (- b) < 53) by (apply Z.log2_lt_pow2; lia).
  replace (Z.max 0 (Z.max (Z.log2 (- b) - (prec - 1)) (emin - 0))) with 0
    by (unfold prec, emin; lia).
  rewrite Z.pow_0_r, rhe_one.
  replace (- b =? 0) with false by (symmetry; apply Z.eqb_neq; lia).
  replace (emax <=? Z.log2 (- b) + (0 + 0)) with false
    by (symmetry; apply Z.leb_gt; unfold emax; lia).
  rewrite Z.sgn_neg by lia.
  replace (-1 * - b) with b by lia.
  cbn [obind format_2f_float].
  replace (b <? 0) with true by (symmetry; apply Z.ltb_lt; lia).
  unfold to_hundredths. cbn [Z.leb Z.compare Z.add].
  rewrite Z.abs_neq by lia.
  replace (- b * 2 ^ 0 * 100) with (100 * - b) by (rewrite Z.pow_0_r; ring).
  rewrite hundredths_whole by lia.
  rewrite !append_assoc. reflexivity.
Qed.

(** A negative count X1 speaks of. *)
Lemma get_size_negative_witness :
  get_size (PyInt (-5)) = Returns (Some ("-" ++ dec (- -5) ++ ".00B")).
Proof. apply (get_size_negative (-5)). vm_compute. split; reflexivity. Defined.

(** The loop returns at the first unit whose power of [1024] exceeds the
    value. *)
Lemma size_text_loop_bracket us j B :
  0 <= j -> 1024 ^ j <= B < 1024 ^ (j + Z.of_nat (List.length us)) ->
  exists i : nat,
    (i < List.length us)%nat /\
    1024 ^ (j + Z.of_nat i) <= B < 1024 ^ (j + Z.of_nat i + 1) /\
    size_text_loop us j B =
      Some (hundredths (round_half_even (100 * B) (1024 ^ (j + Z.of_nat i)))
              ++ nth i us "" ++ "B").
Proof.
  revert j. induction us as [|unit us IH]; intros j Hj HB.
  - cbn [List.length Z.of_nat] in HB. rewrite Z.add_0_r in HB. lia.
  - cbn [size_text_loop].
    destruct (Z.ltb_spec B (1024 ^ (j + 1))) as [Hlt|Hge].
    + exists O. split; [cbn; lia|]. cbn [nth Z.of_nat]. rewrite Z.add_0_r.
      split; [lia | reflexivity].
    + destruct (IH (j + 1)) as (i & Hi & Hb & E); [lia | |].
      * cbn [List.length] in HB. rewrite Nat2Z.inj_succ in HB.
        replace (j + 1 + Z.of_nat (List.length us))
          with (j + Z.succ (Z.of_nat (List.length us))) by lia.
        lia.
      * exists (S i). split; [cbn; lia|]. rewrite E. cbn [nth].
        rewrite Nat2Z.inj_succ.
        replace (j + Z.succ (Z.of_nat i)) with (j + 1 + Z.of_nat i) by lia.
        split; [exact Hb | reflexivity].
Qed.

(** X2.  From [1024] bytes up to the limit of the [P] suffix, the unit
    chosen is the one whose power of [1024] brackets [float(b)], and the
    number shown lies between [1.00] and [1024.00]: rounding to two
    decimals can show [1024.00] of a unit instead of [1.00] of the next. *)
Theorem get_size_value_range (b : Z) :
  1024 <= b < 1024 ^ 6 - 64 ->
  exists (c : Z) (k : nat),
    (1 <= k < 6)%nat /\
    get_size (PyInt b) = Returns (Some (hundredths c ++ nth k units "" ++ "B")) /\
    1024 ^ Z.of_nat k <= nearest53 b < 1024 ^ (Z.of_nat k + 1) /\
    100 <= c <= 102400.
Proof.
  intros [Hlo Hhi]. change (1024 ^ 6) with 1152921504606846976 in Hhi.
  rewrite get_size_int by lia.
  replace (b <? 1024) with false by (symmetry; apply Z.ltb_ge; lia).
  pose proof (shift53_below b 59 ltac:(lia) ltac:(lia) ltac:(cbn; lia)) as Hs.
  pose proof (shift53_nonneg b) as Hs0.
  assert (Hsig : sig53 b <= 2 ^ 53).
  { destruct (Z.eq_dec (shift53 b) 0) as [E|E].
    - unfold sig53. rewrite E, rhe_one.
      assert (Z.log2 b < 53) by (unfold shift53 in E; lia).
      assert (b < 2 ^ 53) by (apply Z.log2_lt_pow2; lia). lia.
    - pose proof (sig53_range b ltac:(lia) ltac:(lia)). lia. }
  assert (Z.log2 (sig53 b) <= 53).
  { change 53 with (Z.log2 (2 ^ 53)). apply Z.log2_le_mono. exact Hsig. }
  replace (emax <=? Z.log2 (sig53 b) + (shift53 b - 10)) with false
    by (symmetry; apply Z.leb_gt; unfold emax; lia).
  assert (Herr : 2 * Z.abs (nearest53 b - b) <= 128).
  { pose proof (nearest53_error b ltac:(lia)) as He.
    assert (2 ^ shift53 b <= 2 ^ (59 - 52)) by (apply Z.pow_le_mono_r; lia).
    change (2 ^ (59 - 52)) with 128 in *. lia. }
  assert (HB : 1024 ^ 1 <= nearest53 b < 1024 ^ (1 + Z.of_nat 5)).
  { split.
    - change (1024 ^ 1) with (2 ^ 10). apply nearest53_ge_pow2; [lia|].
      change (2 ^ 10) with 1024. lia.
    - change (1024 ^ (1 + Z.of_nat 5)) with 1152921504606846976. lia. }
  destruct (size_text_loop_bracket ["K"; "M"; "G"; "T"; "P"] 1 (nearest53 b))
    as (i & Hi & Hb & E); [lia | exact HB |].
  cbn [List.length] in Hi.
  exists (round_half_even (100 * nearest53 b) (1024 ^ (1 + Z.of_nat i))), (S i).
  replace (Z.of_nat (S i)) with (1 + Z.of_nat i) by lia.
  assert (Hd : 0 < 1024 ^ (1 + Z.of_nat i)) by (apply Z.pow_pos_nonneg; lia).
  split; [lia|]. split; [rewrite E; reflexivity|]. split; [exact Hb|].
  replace (1024 ^ (1 + Z.of_nat i + 1)) with (1024 * 1024 ^ (1 + Z.of_nat i)) in Hb
    by (rewrite (Z.pow_add_r 1024 (1 + Z.of_nat i) 1) by lia; change (1024 ^ 1) with 1024; ring).
  split.
  - apply rhe_ge_multiple; [exact Hd | lia].
  - apply rhe_le_multiple; [exact Hd | lia].
Qed.

(** A count X2 speaks of: [1048575], one byte short of a mebibyte. *)
Lemma get_size_value_range_witness :
  exists (c : Z) (k : nat),
    (1 <= k < 6)%nat /\
    get_size (PyInt 1048575) = Returns (Some (hundredths c ++ nth k units "" ++ "B")) /\
    1024 ^ Z.of_nat k <= nearest53 1048575 < 1024 ^ (Z.of_nat k + 1) /\
    100 <= c <= 102400.
Proof.
  apply (get_size_value_range 1048575). vm_compute. split; [discriminate | reflexivity].
Defined.

(** X3.  On a non-negative [int], [get_size] raises exactly from
    [2^1034 - 2^980] on, and what it raises is the [OverflowError] of its
    first division; below, it returns. *)
Theorem get_size_raises_iff (b : Z) :
  0 <= b ->
  (get_size (PyInt b)
   = Raises (Exn OverflowError "integer division result too large for a float")
   <-> 2 ^ 1034 - 2 ^ 980 <= b) /\
  ((exists e, get_size (PyInt b) = Raises e) -> 2 ^ 1034 - 2 ^ 980 <= b) /\
  (b < 2 ^ 1034 - 2 ^ 980 -> exists r, get_size (PyInt b) = Returns r).
Proof.
  intros Hb.
  assert (Hret : b < 2 ^ 1034 - 2 ^ 980 -> exists r, get_size (PyInt b) = Returns r)
    by (intros Hlt; apply get_size_returns; lia).
  assert (Hraise : 2 ^ 1034 - 2 ^ 980 <= b ->
            get_size (PyInt b)
            = Raises (Exn OverflowError "integer division result too large for a float")).
  { intros Hge.
    assert (2 ^ 60 <= 2 ^ 1034 - 2 ^ 980) by (vm_compute; discriminate).
    assert (H60 : 2 ^ 60 <= b) by lia.
    assert (1024 <= b) by (change (2 ^ 60) with 1152921504606846976 in H60; lia).
    rewrite get_size_int by lia.
    replace (b <? 1024) with false by (symmetry; apply Z.ltb_ge; lia).
    rewrite overflow_test by exact H60.
    replace (2 ^ 1034 - 2 ^ 980 <=? b) with true by (symmetry; apply Z.leb_le; lia).
    reflexivity. }
  assert (Hconv : (exists e, get_size (PyInt b) = Raises e) -> 2 ^ 1034 - 2 ^ 980 <= b).
  { intros [e He]. destruct (Z.le_gt_cases (2 ^ 1034 - 2 ^ 980) b) as [H|H]; [exact H|].
    destruct (Hret H) as [r Hr]. congruence. }
  split; [split; [intros H; apply Hconv; eexists; exact H | exact Hraise]|].
  split; [exact Hconv | exact Hret].
Qed.

(** A count X3 speaks of. *)
Lemma get_size_raises_iff_witness :
  exists r, get_size (PyInt 1536) = Returns r.
Proof.
  apply (get_size_raises_iff 1536); vm_compute; [discriminate | reflexivity].
Defined.

Lemma get_size_loop_float_returns (us : list string) (x : float) :
  exists r, get_size_loop us (PyFloat x) = Returns r.
Proof.
  revert x. induction us as [|unit us IH]; intros x; [eexists; reflexivity|].
  rewrite get_size_loop_cons. destruct (lt_1024 (PyFloat x)).
  - eexists. reflexivity.
  - destruct x as [m e|s|]; cbn [truediv_1024 obind]; apply IH.
Qed.

Lemma get_size_loop_stuck (us : list string) (x : float) :
  x = NaN \/ x = Inf false -> get_size_loop us (PyFloat x) = Returns None.
Proof.
  intros Hx. induction us as [|unit us IH]; [reflexivity|].
  rewrite get_size_loop_cons.
  destruct Hx as [->| ->]; cbn [lt_1024 flt of_Z truediv_1024 obind];
    apply IH; auto.
Qed.

(** X4.  Given a [float], [get_size] never raises; a NaN or a positive
    infinity fails every test [bytes < 1024], division leaves it as it is,
    and the result is [None]. *)
Theorem get_size_float_returns (x : float) :
  (exists r, get_size (PyFloat x) = Returns r) /\
  (x = NaN \/ x = Inf false -> get_size (PyFloat x) = Returns None).
Proof.
  split; [apply get_size_loop_float_returns | apply get_size_loop_stuck].
Qed.

(* ================================================================== *)
(** ** More on the inspectors *)

Lemma get_set_same (d : dict) (k : string) (v : value) :
  Dict.get (Dict.set d k v) k = Some v.
Proof.
  induction d as [|[k' v'] d IH]; cbn [Dict.set Dict.get].
  - now rewrite String.eqb_refl.
  - destruct (String.eqb k' k) eqn:E; cbn [Dict.get]; rewrite E; [reflexivity | exact IH].
Qed.

Lemma get_set_other (d : dict) (k k0 : string) (v : value) :
  k <> k0 -> Dict.get (Dict.set d k v) k0 = Dict.get d k0.
Proof.
  intros Hne. induction d as [|[k' v'] d IH]; cbn [Dict.set Dict.get].
  - apply String.eqb_neq in Hne. now rewrite Hne.
  - destruct (String.eqb_spec k' k) as [->|Hk]; cbn [Dict.get].
    + apply String.eqb_neq in Hne. now rewrite Hne.
    + destruct (String.eqb k' k0); [reflexivity | exact IH].
Qed.

Section MoreCpu.

Variable str_float : float -> string.

(** X5.  When [psutil.cpu_freq()] is [None], both frequency entries of
    [get_cpu_info] are ["N/A"]; otherwise they are the maximum and the
    current frequency with two decimals, followed by ["Mhz"]. *)
Theorem cpu_frequency_entries (w : world) :
  exists cpu_info : dict,
    result w (get_cpu_info str_float) = Returns cpu_info /\
    (w _ psutil_cpu_freq = None ->
     Dict.get cpu_info "Max Frequency" = Some (VStr "N/A") /\
     Dict.get cpu_info "Current Frequency" = Some (VStr "N/A")) /\
    (forall f, w _ psutil_cpu_freq = Some f ->
     Dict.get cpu_info "Max Frequency"
     = Some (VStr (format_2f_float (freq_max f) ++ "Mhz")) /\
     Dict.get cpu_info "Current Frequency"
     = Some (VStr (format_2f_float (freq_current f) ++ "Mhz"))).
Proof.
  eexists. split; [unfold result; rewrite get_cpu_info_run; reflexivity|].
  cbn [snd]. rewrite !get_app.
  split.
  - intros E. cbn. rewrite E. split; reflexivity.
  - intros f E. cbn. rewrite E. split; reflexivity.
Qed.

(** X6.  The mapping of [get_cpu_info] has its five fixed keys followed by
    one key ["Core i Usage"] per percentage the provider listed, whatever
    [psutil.cpu_count] says: the two core counts are stored as reported,
    [None] included, and are not compared with the list. *)
Theorem cpu_entries_follow_list (w : world) :
  exists cpu_info : dict,
    result w (get_cpu_info str_float) = Returns cpu_info /\
    Dict.keys cpu_info
    = (cpu_keys
       ++ map core_key
            (seq 0 (List.length (w _ (psutil_cpu_percent (Some (PyInt 1)) true)))))%list /\
    NoDup (Dict.keys cpu_info) /\
    Dict.get cpu_info "Physical Cores" = Some (value_of_count (w _ (psutil_cpu_count false))) /\
    Dict.get cpu_info "Total Cores" = Some (value_of_count (w _ (psutil_cpu_count true))).
Proof.
  eexists. split; [unfold result; rewrite get_cpu_info_run; reflexivity|].
  cbn [snd].
  assert (Ek : Dict.keys (core_entries str_float (w _ (psutil_cpu_percent (Some (PyInt 1)) true)))
               = map core_key
                   (seq 0 (List.length (w _ (psutil_cpu_percent (Some (PyInt 1)) true))))).
  { unfold Dict.keys, core_entries. rewrite map_map. cbn [fst].
    rewrite <- (map_map fst core_key). unfold enumerate. now rewrite enumerate_from_fst. }
  split.
  { unfold Dict.keys in *. rewrite map_app, Ek. reflexivity. }
  split.
  { unfold Dict.keys in *. rewrite map_app, Ek.
    apply NoDup_app.
    - cbn. repeat constructor; cbn; intuition discriminate.
    - apply Injective_map_NoDup; [exact core_key_inj | apply seq_NoDup].
    - intros k Hk Hc. apply in_map_iff in Hc as [i [<- _]].
      assert (Hm : Dict.mem (core_key i) (cpu_base str_float w) = true)
        by (apply mem_keys; exact Hk).
      rewrite core_key_fresh in Hm. discriminate. }
  rewrite !get_app. split; reflexivity.
Qed.

End MoreCpu.

Lemma size_of_small (n : Z) : 0 <= n < 1024 -> size_of n = VStr (dec n ++ ".00B").
Proof.
  intros [H0 Hlt]. unfold size_of. rewrite get_size_int by lia.
  replace (n <? 1024) with true by (symmetry; apply Z.ltb_lt; lia).
  cbn [value_of_size]. rewrite hundredths_whole by lia.
  rewrite append_assoc. reflexivity.
Qed.

Lemma size_of_beyond_P (n : Z) : 1024 ^ 6 <= n < 2 ^ 1034 - 2 ^ 980 -> size_of n = VNone.
Proof.
  intros [Hlo Hhi]. change (1024 ^ 6) with (2 ^ 60) in Hlo.
  assert (1024 <= n) by (change (2 ^ 60) with 1152921504606846976 in Hlo; lia).
  unfold size_of. rewrite get_size_int by lia.
  replace (n <? 1024) with false by (symmetry; apply Z.ltb_ge; lia).
  rewrite overflow_test by exact Hlo.
  replace (2 ^ 1034 - 2 ^ 980 <=? n) with false by (symmetry; apply Z.leb_gt; lia).
  rewrite size_text_loop_none; [reflexivity | lia |].
  change (1024 ^ (1 + Z.of_nat (List.length ["K"; "M"; "G"; "T"; "P"]))) with (2 ^ 60).
  apply nearest53_ge_pow2; [lia | exact Hlo].
Qed.

Section MoreMemory.

Variable str_float : float -> string.

(** X7.  With byte counts for sizes, [get_memory_info] returns its eight
    keys in their fixed order.  A total below [1024] bytes is shown in
    bytes with two zero decimals; a total of [1024^6] bytes or more is not
    shown as a text at all: its entry is [None]. *)
Theorem memory_entries (w : world) :
  memory_counts w ->
  exists memory_info : dict,
    result w (get_memory_info str_float) = Returns memory_info /\
    Dict.keys memory_info = memory_keys /\
    (vm_total (w _ psutil_virtual_memory) < 1024 ->
     Dict.get memory_info "Total Memory"
     = Some (VStr (dec (vm_total (w _ psutil_virtual_memory)) ++ ".00B"))) /\
    (1024 ^ 6 <= vm_total (w _ psutil_virtual_memory) ->
     Dict.get memory_info "Total Memory" = Some VNone).
Proof.
  intros Hw. eexists. split; [apply get_memory_info_result; exact Hw|].
  split; [reflexivity|].
  destruct Hw as ([H0 H64] & _).
  split.
  - intros Hlt. cbn. rewrite size_of_small by lia. reflexivity.
  - intros Hge. cbn. rewrite size_of_beyond_P; [reflexivity|].
    split; [exact Hge|].
    assert (2 ^ 64 <= 2 ^ 1034 - 2 ^ 980) by (vm_compute; discriminate). lia.
Qed.

End MoreMemory.

(** A machine X7 speaks of. *)
Lemma memory_entries_witness :
  memory_counts (world_of sample_machine) /\
  exists memory_info : dict,
    result (world_of sample_machine) (get_memory_info plain_float) = Returns memory_info /\
    Dict.keys memory_info = memory_keys.
Proof.
  assert (H : memory_counts (world_of sample_machine))
    by (unfold memory_counts, byte_count; cbn; lia).
  split; [exact H|].
  destruct (memory_entries plain_float (world_of sample_machine) H) as (d & Hr & Hk & _).
  exists d. split; [exact Hr | exact Hk].
Defined.

(* ================================================================== *)
(** ** More on the disk and GPU inspectors *)

Section MoreDisk.

Variable str_float : float -> string.

(** One turn of the disk loop, for any answer of the provider. *)
Lemma disk_turn_any (w : world) (p : sdiskpart) (d : dict) :
  run w (try_except (disk_entry str_float p d) (fun _ => Ret d))
  = ([Call (psutil_disk_usage (mountpoint p))], Returns (disk_step_any str_float w d p)).
Proof.
  unfold disk_step_any.
  cbn [disk_entry attempt bind try_except run].
  destruct (w _ (psutil_disk_usage (mountpoint p))) as [u|e]; [|reflexivity].
  cbn [bind]. unfold size_value.
  destruct (get_size (PyInt (du_total u))); [|reflexivity].
  cbn [lift bind].
  destruct (get_size (PyInt (du_used u))); [|reflexivity].
  cbn [lift bind].
  destruct (get_size (PyInt (du_free u))); reflexivity.
Qed.

Lemma disk_loop_any (w : world) (ps : list sdiskpart) (d : dict) :
  run w (for_each ps
           (fun partition disk_info =>
              try_except (disk_entry str_float partition disk_info)
                         (fun _ => Ret disk_info)) d)
  = (map (fun p => Call (psutil_disk_usage (mountpoint p))) ps,
     Returns (fold_left (disk_step_any str_float w) ps d)).
Proof.
  revert d. induction ps as [|p ps IH]; intros d; [reflexivity|].
  cbn [for_each]. rewrite run_bind, disk_turn_any, IH. reflexivity.
Qed.

Lemma get_disk_info_run_any (w : world) :
  run w (get_disk_info str_float)
  = (Call psutil_disk_partitions
       :: map (fun p => Call (psutil_disk_usage (mountpoint p))) (w _ psutil_disk_partitions),
     Returns (fold_left (disk_step_any str_float w) (w _ psutil_disk_partitions) [])).
Proof.
  unfold get_disk_info. cbn [bind trigger run].
  pose proof (disk_loop_any w (w _ psutil_disk_partitions) []) as E.
  cbn beta in E |- *. rewrite E. reflexivity.
Qed.

Lemma disk_fold_any_keys (w : world) (ps : list sdiskpart) (d : dict) (k : string) :
  In k (Dict.keys (fold_left (disk_step_any str_float w) ps d)) ->
  In k (Dict.keys d) \/
  exists p, In p ps /\ readable w p = true /\ k = device_key p.
Proof.
  revert d. induction ps as [|p ps IH]; intros d Hin; [left; exact Hin|].
  cbn [fold_left] in Hin. apply IH in Hin. destruct Hin as [Hin|(q & Hq & Hr)].
  - unfold disk_step_any in Hin.
    assert (Er : readable w p = is_returns (w _ (psutil_disk_usage (mountpoint p))))
      by reflexivity.
    destruct (w _ (psutil_disk_usage (mountpoint p))) as [u|e]; [|left; exact Hin].
    destruct (get_size (PyInt (du_total u))); [|left; exact Hin].
    destruct (get_size (PyInt (du_used u))); [|left; exact Hin].
    destruct (get_size (PyInt (du_free u))); [|left; exact Hin].
    rewrite keys_set in Hin.
    destruct (Dict.mem (device_key p) d); [left; exact Hin|].
    apply in_app_or in Hin. destruct Hin as [Hin|[<-|[]]]; [left; exact Hin|].
    right. exists p. split; [left; reflexivity|]. split; [exact Er | reflexivity].
  - right. exists q. split; [right; exact Hq | exact Hr].
Qed.

(** X8.  Once [psutil.disk_partitions()] has answered with its list,
    [get_disk_info] returns whatever the usage reads answer and whatever
    [get_size] does with the sizes: it lists the partitions once, reads the
    usage of each exactly once, in order and by its mountpoint, prints
    nothing, and every key of its result is ["Device "] followed by the
    device of a partition whose usage could be read.  (The listing itself
    is called outside the [try]; the model gives it no failing answer, and
    nothing is said here of a run in which it raises.) *)
Theorem get_disk_info_after_listing (w : world) (partitions : list sdiskpart) :
  w _ psutil_disk_partitions = partitions ->
  exists disk_info : dict,
    run w (get_disk_info str_float)
    = (Call psutil_disk_partitions
         :: map (fun p => Call (psutil_disk_usage (mountpoint p))) partitions,
       Returns disk_info) /\
    stdout (trace w (get_disk_info str_float)) = [] /\
    forall k, In k (Dict.keys disk_info) ->
      exists p u, In p partitions /\
                  w _ (psutil_disk_usage (mountpoint p)) = Returns u /\
                  k = "Device " ++ device p.
Proof.
  intros <-.
  eexists. split; [apply get_disk_info_run_any|].
  split.
  - unfold trace. rewrite get_disk_info_run_any. cbn [fst stdout].
    apply stdout_disk_usage_calls.
  - intros k Hin. apply disk_fold_any_keys in Hin. destruct Hin as [[]|(p & Hp & Hr & Hk)].
    unfold readable in Hr.
    destruct (w _ (psutil_disk_usage (mountpoint p))) as [u|e] eqn:Eu; [|discriminate Hr].
    exists p, u. repeat split; assumption.
Qed.

Lemma disk_fold_any_unreadable (w : world) (ps : list sdiskpart) (d : dict) :
  (forall p, In p ps -> readable w p = false) ->
  fold_left (disk_step_any str_float w) ps d = d.
Proof.
  revert d. induction ps as [|p ps IH]; intros d H; [reflexivity|].
  cbn [fold_left]. rewrite IH by (intros q Hq; apply H; right; exact Hq).
  unfold disk_step_any. specialize (H p (or_introl eq_refl)).
  unfold readable in H.
  destruct (w _ (psutil_disk_usage (mountpoint p))); [discriminate H | reflexivity].
Qed.

(** X9.  When no partition's usage can be read (in particular when there
    is no partition), [get_disk_info] returns the empty mapping and raises
    nothing. *)
Theorem get_disk_info_none_readable (w : world) :
  (forall p, In p (w _ psutil_disk_partitions) -> readable w p = false) ->
  result w (get_disk_info str_float) = Returns [].
Proof.
  intros H. unfold result. rewrite get_disk_info_run_any. cbn [snd].
  now rewrite disk_fold_any_unreadable.
Qed.

Lemma disk_fold_keeps (w : world) (qs : list sdiskpart) (d : dict) (k : string) :
  (forall q, In q qs -> readable w q = true -> device_key q <> k) ->
  Dict.get (fold_left (disk_step str_float w) qs d) k = Dict.get d k.
Proof.
  revert d. induction qs as [|q qs IH]; intros d H; [reflexivity|].
  cbn [fold_left]. rewrite IH by (intros r Hr; apply H; right; exact Hr).
  unfold disk_step. specialize (H q (or_introl eq_refl)). unfold readable in H.
  destruct (w _ (psutil_disk_usage (mountpoint q))); [|reflexivity].
  apply get_set_other. apply H. reflexivity.
Qed.

(** X10.  When several readable partitions have the same device, the entry
    of that device is the one of the last of them: with byte counts for
    sizes, a readable partition after which no readable partition has its
    device owns the entry under its device key. *)
Theorem disk_last_partition_wins (w : world) (ps qs : list sdiskpart)
    (p : sdiskpart) (u : sdiskusage) :
  disk_counts w ->
  w _ psutil_disk_partitions = (ps ++ p :: qs)%list ->
  w _ (psutil_disk_usage (mountpoint p)) = Returns u ->
  (forall q, In q qs -> readable w q = true -> device q <> device p) ->
  exists disk_info : dict,
    result w (get_disk_info str_float) = Returns disk_info /\
    Dict.get disk_info (device_key p)
    = Some (disk_value str_float p u
              (size_of (du_total u)) (size_of (du_used u)) (size_of (du_free u))).
Proof.
  intros Hc Hps Hu Hlast. eexists.
  split; [unfold result; rewrite get_disk_info_run by exact Hc; reflexivity|].
  cbn [snd]. rewrite Hps, fold_left_app. cbn [fold_left].
  rewrite disk_fold_keeps.
  - unfold disk_step at 1. rewrite Hu. apply get_set_same.
  - intros q Hq Hr E. apply (Hlast q Hq Hr).
    unfold device_key in E. cbn [append] in E. now injection E.
Qed.

(** X11.  The [try] of the disk loop also covers the formatter: when the
    usage of a partition is read but its total is so large that
    [get_size] raises [OverflowError], the partition is skipped like an
    unreadable one and the mapping stays as it was. *)
Theorem disk_turn_skips_unformattable (w : world) (p : sdiskpart) (d : dict)
    (u : sdiskusage) :
  w _ (psutil_disk_usage (mountpoint p)) = Returns u ->
  2 ^ 1034 - 2 ^ 980 <= du_total u ->
  run w (try_except (disk_entry str_float p d) (fun _ => Ret d))
  = ([Call (psutil_disk_usage (mountpoint p))], Returns d).
Proof.
  intros Hu Hbig. rewrite disk_turn_any. unfold disk_step_any. rewrite Hu.
  assert (2 ^ 60 <= 2 ^ 1034 - 2 ^ 980) by (vm_compute; discriminate).
  assert (H60 : 2 ^ 60 <= du_total u) by lia.
  assert (1024 <= du_total u) by (change (2 ^ 60) with 1152921504606846976 in H60; lia).
  rewrite (get_size_int (du_total u)) by lia.
  replace (du_total u <? 1024) with false by (symmetry; apply Z.ltb_ge; lia).
  rewrite overflow_test by exact H60.
  replace (2 ^ 1034 - 2 ^ 980 <=? du_total u) with true by (symmetry; apply Z.leb_le; lia).
  reflexivity.
Qed.

End MoreDisk.

Section MoreGpu.

Variable str_float : float -> string.

(** X12.  [try_get_gpu_info] prints nothing and calls the provider at most
    twice: when importing the module raises, the GPUs are never
    enumerated; otherwise they are enumerated once. *)
Theorem gpu_calls (w : world) :
  stdout (trace w (try_get_gpu_info str_float)) = [] /\
  (forall e, w _ import_GPUtil = Raises e ->
     trace w (try_get_gpu_info str_float) = [Call import_GPUtil]) /\
  (w _ import_GPUtil = Returns tt ->
     trace w (try_get_gpu_info str_float) = [Call import_GPUtil; Call GPUtil_getGPUs]).
Proof.
  split; [apply try_get_gpu_info_quiet|].
  unfold try_get_gpu_info, trace. cbn [attempt bind try_except run].
  split.
  - intros e ->. cbn [bind try_except run]. destruct (exn_class e); reflexivity.
  - intros ->. cbn [bind try_except run].
    destruct (w _ GPUtil_getGPUs) as [gpus|e]; cbn [bind try_except run fst].
    + reflexivity.
    + destruct (exn_class e); reflexivity.
Qed.


End MoreGpu.

(** A machine X10 speaks of: the device mounted at ["/"] and at
    ["/home"]; the second mount owns the entry. *)
Lemma disk_last_partition_wins_witness :
  exists disk_info : dict,
    result (world_of sample_machine) (get_disk_info plain_float) = Returns disk_info /\
    Dict.get disk_info (device_key home_partition)
    = Some (disk_value plain_float home_partition sample_usage
              (size_of (du_total sample_usage)) (size_of (du_used sample_usage))
              (size_of (du_free sample_usage))).
Proof.
  apply (disk_last_partition_wins plain_float (world_of sample_machine)
           [root_partition] [optical_partition] home_partition sample_usage).
  - intros p u Hin E. cbn in Hin.
    destruct Hin as [<-|[<-|[<-|[]]]]; cbn in E; try discriminate E;
      injection E as <-; unfold usage_counts, byte_count; cbn; lia.
  - reflexivity.
  - reflexivity.
  - intros q [<-|[]] Hr. discriminate Hr.
Defined.

(** A machine X9 speaks of: only an empty optical drive. *)
Lemma get_disk_info_none_readable_witness :
  result (world_of (disk_machine [optical_partition] (m_disk_usage sample_machine)))
         (get_disk_info plain_float)
  = Returns [].
Proof.
  apply (get_disk_info_none_readable plain_float
           (world_of (disk_machine [optical_partition] (m_disk_usage sample_machine)))).
  intros p [<-|[]]. reflexivity.
Defined.

(** A turn X11 speaks of: a usage whose total is [2^1034]. *)
Lemma disk_turn_skips_unformattable_witness :
  run (world_of (disk_machine [root_partition] (fun _ => Returns huge_usage)))
      (try_except (disk_entry plain_float root_partition []) (fun _ => Ret []))
  = ([Call (psutil_disk_usage (mountpoint root_partition))], Returns []).
Proof.
  apply (disk_turn_skips_unformattable plain_float
           (world_of (disk_machine [root_partition] (fun _ => Returns huge_usage)))
           root_partition [] huge_usage).
  - reflexivity.
  - vm_compute. discriminate.
Defined.


Lemma get_disk_info_after_listing_witness :
  world_of sample_machine _ psutil_disk_partitions = m_partitions sample_machine /\
  exists disk_info : dict,
    run (world_of sample_machine) (get_disk_info plain_float)
    = (Call psutil_disk_partitions
         :: map (fun p => Call (psutil_disk_usage (mountpoint p)))
              (m_partitions sample_machine),
       Returns disk_info) /\
    stdout (trace (world_of sample_machine) (get_disk_info plain_float)) = [].
Proof.
  split; [reflexivity|].
  destruct (get_disk_info_after_listing plain_float (world_of sample_machine)
              (m_partitions sample_machine) eq_refl) as (d & Hr & Hq & _).
  exists d. split; [exact Hr | exact Hq].
Defined.

(* ================================================================== *)
(** ** The disk inspector, for any answer of the provider *)

Section DiskEntries.

Variable str_float : float -> string.









End DiskEntries.



(* ================================================================== *)
(** ** More on the renderer *)

Section MoreRenderer.

Variable tabulate : list (list value) -> list string -> string -> string.
Variable str_float : float -> string.

Lemma trace_returns {A B : Type} (w : world) (p : prog A) (f : A -> prog B) (a : A) :
  result w p = Returns a ->
  trace w (bind p f) = (trace w p ++ trace w (f a))%list.
Proof. intros H. now rewrite trace_bind, H. Qed.

Lemma print_trace (w : world) (v : value) :
  result w (trigger (print v)) = Returns tt /\ trace w (trigger (print v)) = [Call (print v)].
Proof.
  unfold result, trace. cbn [trigger run fst snd].
  now destruct (w unit (print v)).
Qed.

Lemma gpu_section_trace (w : world) (gpu_info : dict) :
  gpu_info = gpu_unavailable \/ (exists e, gpu_info = gpu_failed e) \/
  (exists gpus, gpu_info = gpu_entries str_float gpus) ->
  trace w
    (if is_sentinel gpu_info then
       match Dict.get gpu_info (if Dict.mem "Status" gpu_info then "Status" else "Error") with
       | Some v => trigger (print v)
       | None => Throw (Exn (OtherException "KeyError")
                          (if Dict.mem "Status" gpu_info then "Status" else "Error"))
       end
     else print_groups tabulate gpu_info)
  = map (fun v => Call (print v))
        (if is_sentinel gpu_info then map snd gpu_info else group_lines tabulate gpu_info).
Proof.
  intros [->|[[e ->]|[gpus ->]]].
  - reflexivity.
  - reflexivity.
  - rewrite gpu_entries_not_sentinel.
    unfold trace. rewrite print_groups_run; [reflexivity|].
    unfold gpu_entries. apply Forall_forall. intros kv Hin.
    apply in_map_iff in Hin as [ig [<- _]]. reflexivity.
Qed.

(** The whole trace of [main] when the inspectors return. *)
Lemma main_trace (w : world) :
  memory_counts w ->
  exists system_info cpu_info memory_info disk_info gpu_info : dict,
    result w get_system_info = Returns system_info /\
    result w (get_cpu_info str_float) = Returns cpu_info /\
    result w (get_memory_info str_float) = Returns memory_info /\
    result w (get_disk_info str_float) = Returns disk_info /\
    result w (try_get_gpu_info str_float) = Returns gpu_info /\
    (gpu_info = gpu_unavailable \/ (exists e, gpu_info = gpu_failed e) \/
     (exists gpus, gpu_info = gpu_entries str_float gpus)) /\
    trace w (main tabulate str_float)
    = ([ Call (print (VStr (nl ++ "=== Hardware Diagnostic Tool ===")));
         Call (datetime_now_strftime "%Y-%m-%d %H:%M:%S");
         Call (print (VStr ("Report generated on: "
                            ++ w _ (datetime_now_strftime "%Y-%m-%d %H:%M:%S") ++ nl))) ]
       ++ trace w get_system_info
       ++ trace w (get_cpu_info str_float)
       ++ trace w (get_memory_info str_float)
       ++ trace w (get_disk_info str_float)
       ++ trace w (try_get_gpu_info str_float)
       ++ map (fun v => Call (print v))
            (report_body tabulate system_info cpu_info memory_info disk_info gpu_info))%list.
Proof.
  intros Hm.
  destruct (get_disk_info_quiet str_float w) as (disk_info & Hdr & _ & Hdd).
  destruct (gpu_result_cases str_float w) as (gpu_info & Hgr & Hcases).
  pose proof (gpu_section_trace w gpu_info Hcases) as Hbody.
  assert (Hsys : result w get_system_info = Returns (system_base w)) by reflexivity.
  assert (Hcpu : result w (get_cpu_info str_float)
                 = Returns (cpu_base str_float w
                            ++ core_entries str_float
                                 (w _ (psutil_cpu_percent (Some (PyInt 1)) true)))%list)
    by (unfold result; now rewrite get_cpu_info_run).
  pose proof (get_memory_info_result str_float w Hm) as Hmem.
  do 5 eexists.
  split; [exact Hsys|]. split; [exact Hcpu|]. split; [exact Hmem|].
  split; [exact Hdr|]. split; [exact Hgr|]. split; [exact Hcases|].
  assert (Hsec : forall title info,
            result w (print_section tabulate title info) = Returns tt /\
            trace w (print_section tabulate title info)
            = map (fun v => Call (print v)) (section_lines tabulate title info)).
  { intros title info. unfold result, trace. rewrite print_section_run. split; reflexivity. }
  assert (Hgrp : result w (print_groups tabulate disk_info) = Returns tt /\
                 trace w (print_groups tabulate disk_info)
                 = map (fun v => Call (print v)) (group_lines tabulate disk_info)).
  { unfold result, trace. rewrite print_groups_run by exact Hdd. split; reflexivity. }
  unfold main.
  rewrite (trace_returns w _ _ _ (proj1 (print_trace w _))).
  rewrite (trace_returns w (trigger (datetime_now_strftime _)) _ _ eq_refl).
  rewrite (trace_returns w _ _ _ (proj1 (print_trace w _))).
  rewrite (trace_returns w _ _ _ Hsys).
  rewrite (trace_returns w _ _ _ Hcpu).
  rewrite (trace_returns w _ _ _ Hmem).
  rewrite (trace_returns w _ _ _ Hdr).
  rewrite (trace_returns w _ _ _ Hgr).
  rewrite (trace_returns w _ _ _ (proj1 (Hsec _ _))).
  rewrite (trace_returns w _ _ _ (proj1 (Hsec _ _))).
  rewrite (trace_returns w _ _ _ (proj1 (Hsec _ _))).
  rewrite (trace_returns w _ _ _ (proj1 (print_trace w _))).
  rewrite (trace_returns w _ _ _ (proj1 Hgrp)).
  rewrite (trace_returns w _ _ _ (proj1 (print_trace w _))).
  rewrite Hbody.
  rewrite !(proj2 (print_trace w _)), !(proj2 (Hsec _ _)), (proj2 Hgrp).
  unfold report_body. rewrite !map_app.
  cbn [trace trigger run fst app map].
  repeat rewrite <- List.app_assoc. reflexivity.
Qed.

(** X15.  In a run of [main] in which the inspectors return, the title and
    the generation time are printed first; then come, with no line printed
    in between, the six [platform] calls, the five CPU calls (the last one
    the per-core sample with [interval=1]), the two memory calls, the
    listing of the partitions with one usage read per partition, and the
    GPU calls; only after all of them are the sections printed. *)
Theorem main_call_order (w : world) :
  memory_counts w ->
  exists report : list value,
    stdout (trace w (try_get_gpu_info str_float)) = [] /\
    trace w (main tabulate str_float)
    = ([ Call (print (VStr (nl ++ "=== Hardware Diagnostic Tool ===")));
         Call (datetime_now_strftime "%Y-%m-%d %H:%M:%S");
         Call (print (VStr ("Report generated on: "
                            ++ w _ (datetime_now_strftime "%Y-%m-%d %H:%M:%S") ++ nl)));
         Call platform_system; Call platform_release; Call platform_version;
         Call platform_machine; Call platform_processor; Call platform_node;
         Call psutil_cpu_freq; Call (psutil_cpu_count false); Call (psutil_cpu_count true);
         Call (psutil_cpu_percent None false);
         Call (psutil_cpu_percent (Some (PyInt 1)) true);
         Call psutil_virtual_memory; Call psutil_swap_memory;
         Call psutil_disk_partitions ]
       ++ map (fun p => Call (psutil_disk_usage (mountpoint p))) (w _ psutil_disk_partitions)
       ++ trace w (try_get_gpu_info str_float)
       ++ map (fun v => Call (print v)) report)%list.
Proof.
  intros Hm.
  destruct (main_trace w Hm) as (sys & cpu & mem & disk & gpu & _ & _ & _ & _ & _ & _ & Ht).
  exists (report_body tabulate sys cpu mem disk gpu).
  split; [apply try_get_gpu_info_quiet|].
  rewrite Ht.
  assert (Ems : trace w (get_memory_info str_float)
                = [Call psutil_virtual_memory; Call psutil_swap_memory]).
  { destruct Hm as (H1 & H2 & H3 & H4 & H5 & H6).
    unfold trace. cbn [get_memory_info run bind trigger].
    rewrite (size_value_count _ H1). cbn [bind].
    rewrite (size_value_count _ H2). cbn [bind].
    rewrite (size_value_count _ H3). cbn [bind].
    rewrite (size_value_count _ H4). cbn [bind].
    rewrite (size_value_count _ H5). cbn [bind].
    rewrite (size_value_count _ H6). reflexivity. }
  rewrite Ems.
  unfold trace at 1 2 3. rewrite get_cpu_info_run, get_disk_info_run_any.
  reflexivity.
Qed.

(** X14.  With the GPU module present and no GPU found, the GPU result is
    the empty mapping: it is no sentinel, the loop over it prints nothing,
    and the report ends with the GPU header. *)
Theorem report_without_gpus (w : world) :
  memory_counts w ->
  w _ import_GPUtil = Returns tt ->
  w _ GPUtil_getGPUs = Returns [] ->
  result w (try_get_gpu_info str_float) = Returns [] /\
  exists system_info cpu_info memory_info disk_info : dict,
    result w get_system_info = Returns system_info /\
    result w (get_cpu_info str_float) = Returns cpu_info /\
    result w (get_memory_info str_float) = Returns memory_info /\
    result w (get_disk_info str_float) = Returns disk_info /\
    stdout (trace w (main tabulate str_float))
    = report_head tabulate (w _ (datetime_now_strftime "%Y-%m-%d %H:%M:%S"))
        system_info cpu_info memory_info disk_info.
Proof.
  intros Hm Hi Hg.
  assert (Hr : result w (try_get_gpu_info str_float) = Returns [])
    by (rewrite try_get_gpu_info_result, Hi, Hg; reflexivity).
  split; [exact Hr|].
  destruct (main_trace w Hm)
    as (sys & cpu & mem & disk & gpu & Hs & Hc & Hme & Hd & Hgr & _ & Ht).
  rewrite Hr in Hgr. injection Hgr as <-.
  exists sys, cpu, mem, disk.
  split; [exact Hs|]. split; [exact Hc|]. split; [exact Hme|]. split; [exact Hd|].
  assert (Hsq : stdout (trace w get_system_info) = []) by reflexivity.
  assert (Hcq : stdout (trace w (get_cpu_info str_float)) = [])
    by (unfold trace; rewrite get_cpu_info_run; reflexivity).
  destruct (get_disk_info_quiet str_float w) as (disk' & Hd' & Hdq & _).
  rewrite Ht, !stdout_app, stdout_prints.
  rewrite Hsq, Hcq, Hdq, get_memory_info_quiet, try_get_gpu_info_quiet.
  unfold report_body, report_head.
  change (is_sentinel []) with false. cbv iota.
  change (group_lines tabulate []) with (@nil value).
  rewrite List.app_nil_r.
  change (stdout
            [Call (print (VStr (nl ++ "=== Hardware Diagnostic Tool ===")));
             Call (datetime_now_strftime "%Y-%m-%d %H:%M:%S");
             Call (print (VStr ("Report generated on: "
                                ++ w _ (datetime_now_strftime "%Y-%m-%d %H:%M:%S") ++ nl)))])
    with [VStr (nl ++ "=== Hardware Diagnostic Tool ===");
          VStr ("Report generated on: "
                ++ w _ (datetime_now_strftime "%Y-%m-%d %H:%M:%S") ++ nl)].
  change (@nil value ++ ?x)%list with x.
  repeat rewrite <- List.app_assoc. reflexivity.
Qed.

(** X16.  The mandatory inspectors are not guarded: when the total memory
    is so large that [get_size] raises [OverflowError], [main] ends with
    that exception, having printed the title and the generation time and
    nothing else. *)
Theorem main_memory_failure (w : world) :
  2 ^ 1034 - 2 ^ 980 <= vm_total (w _ psutil_virtual_memory) ->
  result w (main tabulate str_float)
  = Raises (Exn OverflowError "integer division result too large for a float") /\
  stdout (trace w (main tabulate str_float))
  = [ VStr (nl ++ "=== Hardware Diagnostic Tool ===");
      VStr ("Report generated on: "
            ++ w _ (datetime_now_strftime "%Y-%m-%d %H:%M:%S") ++ nl) ].
Proof.
  intros Hbig.
  assert (2 ^ 60 <= 2 ^ 1034 - 2 ^ 980) by (vm_compute; discriminate).
  assert (H60 : 2 ^ 60 <= vm_total (w _ psutil_virtual_memory)) by lia.
  assert (1024 <= vm_total (w _ psutil_virtual_memory))
    by (change (2 ^ 60) with 1152921504606846976 in H60; lia).
  assert (Hgs : get_size (PyInt (vm_total (w _ psutil_virtual_memory)))
                = Raises (Exn OverflowError "integer division result too large for a float")).
  { rewrite get_size_int by lia.
    replace (vm_total (w _ psutil_virtual_memory) <? 1024) with false
      by (symmetry; apply Z.ltb_ge; lia).
    rewrite overflow_test by exact H60.
    replace (2 ^ 1034 - 2 ^ 980 <=? vm_total (w _ psutil_virtual_memory)) with true
      by (symmetry; apply Z.leb_le; lia).
    reflexivity. }
  assert (Hmem : run w (get_memory_info str_float)
                 = ([Call psutil_virtual_memory; Call psutil_swap_memory],
                    Raises (Exn OverflowError "integer division result too large for a float"))).
  { cbn [get_memory_info run bind trigger]. unfold size_value at 1. rewrite Hgs.
    reflexivity. }
  assert (Hsys : result w get_system_info = Returns (system_base w)) by reflexivity.
  assert (Hcpu : result w (get_cpu_info str_float)
                 = Returns (cpu_base str_float w
                            ++ core_entries str_float
                                 (w _ (psutil_cpu_percent (Some (PyInt 1)) true)))%list)
    by (unfold result; now rewrite get_cpu_info_run).
  assert (Hmr : result w (get_memory_info str_float)
                = Raises (Exn OverflowError "integer division result too large for a float"))
    by (unfold result; rewrite Hmem; reflexivity).
  assert (Hsq : stdout (trace w get_system_info) = []) by reflexivity.
  assert (Hcq : stdout (trace w (get_cpu_info str_float)) = [])
    by (unfold trace; rewrite get_cpu_info_run; reflexivity).
  unfold main. split.
  - rewrite (proj1 (bind_returns w _ _ _ (proj1 (print_returns w _)))).
    rewrite (proj1 (bind_returns w (trigger (datetime_now_strftime _)) _ _ eq_refl)).
    rewrite (proj1 (bind_returns w _ _ _ (proj1 (print_returns w _)))).
    rewrite (proj1 (bind_returns w _ _ _ Hsys)).
    rewrite (proj1 (bind_returns w _ _ _ Hcpu)).
    rewrite result_bind, Hmr. reflexivity.
  - rewrite (proj2 (bind_returns w _ _ _ (proj1 (print_returns w _)))).
    rewrite (proj2 (bind_returns w (trigger (datetime_now_strftime _)) _ _ eq_refl)).
    rewrite (proj2 (bind_returns w _ _ _ (proj1 (print_returns w _)))).
    rewrite (proj2 (bind_returns w _ _ _ Hsys)).
    rewrite (proj2 (bind_returns w _ _ _ Hcpu)).
    rewrite stdout_bind, Hmr, (get_memory_info_quiet str_float w), Hsq, Hcq.
    rewrite !(proj2 (print_returns w _)).
    reflexivity.
Qed.

End MoreRenderer.

(** A machine X16 speaks of: its total memory is [2^1034] bytes. *)
Lemma main_memory_failure_witness :
  result (world_of huge_memory_machine) (main plain_table plain_float)
  = Raises (Exn OverflowError "integer division result too large for a float").
Proof.
  apply (main_memory_failure plain_table plain_float (world_of huge_memory_machine)).
  vm_compute. discriminate.
Defined.

(** A machine X14 speaks of: the GPU module is there, no GPU is. *)
Lemma report_without_gpus_witness :
  result (world_of no_gpu_machine) (try_get_gpu_info plain_float) = Returns [].
Proof.
  apply (report_without_gpus plain_table plain_float (world_of no_gpu_machine)).
  - unfold memory_counts, byte_count; cbn; lia.
  - reflexivity.
  - reflexivity.
Defined.

(** A machine X15 speaks of. *)
Lemma main_call_order_witness :
  exists report : list value,
    stdout (trace (world_of sample_machine) (try_get_gpu_info plain_float)) = [] /\
    trace (world_of sample_machine) (main plain_table plain_float)
    = ([ Call (print (VStr (nl ++ "=== Hardware Diagnostic Tool ===")));
         Call (datetime_now_strftime "%Y-%m-%d %H:%M:%S");
         Call (print (VStr ("Report generated on: "
                            ++ world_of sample_machine _
                                 (datetime_now_strftime "%Y-%m-%d %H:%M:%S") ++ nl)));
         Call platform_system; Call platform_release; Call platform_version;
         Call platform_machine; Call platform_processor; Call platform_node;
         Call psutil_cpu_freq; Call (psutil_cpu_count false); Call (psutil_cpu_count true);
         Call (psutil_cpu_percent None false);
         Call (psutil_cpu_percent (Some (PyInt 1)) true);
         Call psutil_virtual_memory; Call psutil_swap_memory;
         Call psutil_disk_partitions ]
       ++ map (fun p => Call (psutil_disk_usage (mountpoint p)))
            (world_of sample_machine _ psutil_disk_partitions)
       ++ trace (world_of sample_machine) (try_get_gpu_info plain_float)
       ++ map (fun v => Call (print v)) report)%list.
Proof.
  apply (main_call_order plain_table plain_float (world_of sample_machine)).
  unfold memory_counts, byte_count; cbn; lia.
Defined.

